(** * Growth-Wheat: growth laws and the one-step simulation

    A shallow embedding of the Python sources

    - [trunk/growthwheat/model.py] (leaf geometry, [calculate_lamina_L]),
    - [branches/tillering_hack/growthwheat/parameters.py] and [model.py]
      (mass-growth laws of hidden zones, emerged tissues and roots),
    - [trunk/growthwheat/simulation.py] ([Simulation.run]),

    together with the properties of these functions that the
    specification of the repository states.

    Python floats are IEEE 754 binary64 numbers: they are embedded as
    [spec_float] with the operations of [SpecFloat] at precision 53, so
    that NaN, infinities, signed zeros and rounding are those of the
    program.  Python exceptions are embedded as the [Raise] outcome of a
    [result]. *)

From Stdlib Require Import ZArith SpecFloat.
From Stdlib Require PrimFloat FloatOps.
From stdpp Require Import gmap strings list fin_maps.

Set Warnings "-inexact-float,-clear-no-such-hyp".

(** ** Python values *)

(** Components of a topology tuple such as [(1, 'MS', 3, 'blade')]. *)
Inductive atom :=
  | AInt (n : Z)
  | AStr (s : string).

(** A topology identifier is a Python tuple of atoms. *)
Abbreviation key := (list atom).

(** Keys a dictionary can be indexed with: identifiers and field names. *)
Inductive pyobj :=
  | OTuple (k : key)
  | OStr (s : string).

Inductive exn :=
  | KeyError (k : pyobj)
  | ZeroDivisionError
  | OverflowError
  | ValueError
  | Warning (msg : string).

Inductive result (A : Type) :=
  | Ok (a : A)
  | Raise (e : exn).

Arguments Ok {A} a.
Arguments Raise {A} e.

#[export] Instance result_ret : MRet result := λ A, Ok.

#[export] Instance result_bind : MBind result := λ A B k r,
  match r with
  | Ok a => k a
  | Raise e => Raise e
  end.

(** ** Binary64 floats *)

Definition float := spec_float.

Definition lit (x : PrimFloat.float) : float := FloatOps.Prim2SF x.

Definition fadd : float → float → float := SFadd FloatOps.prec FloatOps.emax.
Definition fsub : float → float → float := SFsub FloatOps.prec FloatOps.emax.
Definition fmul : float → float → float := SFmul FloatOps.prec FloatOps.emax.
Definition fdiv : float → float → float := SFdiv FloatOps.prec FloatOps.emax.

(** [x < y], [x <= y]: false as soon as an operand is NaN. *)
Definition flt : float → float → bool := SFltb.
Definition fle : float → float → bool := SFleb.

(** The integer literal [0]; float arithmetic and comparisons coerce it
    to [0.0], which is how it is embedded. *)
Definition zero : float := S754_zero false.

Definition nan : float := S754_nan.

(** [numpy.isnan] *)
Definition is_nan (x : float) : bool :=
  match x with
  | S754_nan => true
  | _ => false
  end.

Definition is_zero (x : float) : bool :=
  match x with
  | S754_zero _ => true
  | _ => false
  end.

(** [x / y] on Python floats raises on a zero divisor and is the IEEE
    quotient otherwise. *)
Definition truediv (x y : float) : result float :=
  if is_zero y then Raise ZeroDivisionError else Ok (fdiv x y).

(** [max(a, b)]: the builtin keeps its first argument unless the second
    compares strictly greater. *)
Definition py_max (a b : float) : float := if flt a b then b else a.

(** [min(a, b)]: the builtin keeps its first argument unless the second
    compares strictly smaller. *)
Definition py_min (a b : float) : float := if flt b a then b else a.

(** ** [branches/tillering_hack/growthwheat/parameters.py] *)

Module parameters.
Import (notations) PrimFloat.

Definition C_MOLAR_MASS : float := Eval vm_compute in lit 12.
Definition N_MOLAR_MASS : float := Eval vm_compute in lit 14.

Definition CONVERSION_FACTOR_20_TO_12 : float := Eval vm_compute in lit 0.45.

Definition HEXOSE_MOLAR_MASS_C_RATIO : float := Eval vm_compute in lit 0.42.
Definition AMINO_ACIDS_MOLAR_MASS_N_RATIO : float := Eval vm_compute in lit 0.135.

Definition RATIO_SUCROSE_MSTRUCT : float := Eval vm_compute in lit 0.444.
Definition RATIO_AMINO_ACIDS_MSTRUCT : float := Eval vm_compute in lit 0.005.
Definition AMINO_ACIDS_C_RATIO : float := Eval vm_compute in lit 4.15.
Definition AMINO_ACIDS_N_RATIO : float := Eval vm_compute in lit 1.25.
Definition RATIO_ENCLOSED_LEAF_INTERNODE : float := Eval vm_compute in lit 5.

(** [te = 300 * 3600 * 24 / 12]: true division of two integers. *)
Definition te : float := Eval vm_compute in fdiv (lit 25920000) (lit 12).
(** [te_IN = 210 * 3600 * 24 / 12] *)
Definition te_IN : float := Eval vm_compute in fdiv (lit 18144000) (lit 12).

Definition VMAX_ROOTS_GROWTH_POSTFLO : float :=
  Eval vm_compute in fmul (lit 0.015) CONVERSION_FACTOR_20_TO_12.
Definition VMAX_ROOTS_GROWTH_PREFLO : float :=
  Eval vm_compute in fmul (fmul (lit 0.015) CONVERSION_FACTOR_20_TO_12) (lit 5.7).
Definition K_ROOTS_GROWTH : float := Eval vm_compute in lit 1250.
Definition RATIO_C_MSTRUCT_ROOTS : float := Eval vm_compute in lit 0.444.
Definition RATIO_N_MSTRUCT_ROOTS_ : float := Eval vm_compute in lit 0.005.

Definition _1E6 : float := Eval vm_compute in lit 1e6.
Definition _1E_6 : float := Eval vm_compute in lit 1e-6.
(** The exponent [N = 1.8] of the root growth law. *)
Definition _1_8 : float := Eval vm_compute in lit 1.8.
End parameters.

(** ** [branches/tillering_hack/growthwheat/model.py] *)

Module model.
Import parameters.

Definition calculate_delta_leaf_enclosed_mstruct_postE
    (delta_leaf_pseudo_age leaf_pseudo_age leaf_pseudostem_L enclosed_mstruct LSSW : float)
    : result float :=
  let enclosed_mstruct_max := fmul leaf_pseudostem_L LSSW in
  if flt leaf_pseudo_age te then
    q ← truediv (fsub enclosed_mstruct_max enclosed_mstruct) (fsub te leaf_pseudo_age);
    Ok (fmul q delta_leaf_pseudo_age)
  else
    Ok zero.

(** The local [enclosed_mstruct_max] of
    [calculate_delta_internode_enclosed_mstruct_postL]. *)
Definition enclosed_mstruct_max_postL
    (internode_L internode_pseudostem_L internode_Lmax LSIW : float) : float :=
  if is_nan internode_Lmax then
    fmul internode_L LSIW
  else
    fmul (py_min internode_pseudostem_L internode_Lmax) LSIW.

Definition calculate_delta_internode_enclosed_mstruct_postL
    (delta_internode_pseudo_age internode_pseudo_age internode_L
     internode_pseudostem_L internode_Lmax LSIW enclosed_mstruct : float)
    : result float :=
  let enclosed_mstruct_max :=
    enclosed_mstruct_max_postL internode_L internode_pseudostem_L internode_Lmax LSIW in
  if flt internode_pseudo_age te_IN then
    q ← truediv (fsub enclosed_mstruct_max enclosed_mstruct) (fsub te_IN internode_pseudo_age);
    Ok (fmul q delta_internode_pseudo_age)
  else
    Ok zero.

Definition calculate_delta_emerged_tissue_mstruct (SW previous_mstruct metric : float) : float :=
  let updated_mstruct := fmul SW metric in
  let delta_mstruct := fsub updated_mstruct previous_mstruct in
  delta_mstruct.

Definition calculate_delta_Nstruct (delta_mstruct : float) : float :=
  fmul delta_mstruct RATIO_AMINO_ACIDS_MSTRUCT.

Definition calculate_export (delta_mstruct metabolite hiddenzone_mstruct : float) : result float :=
  c ← truediv metabolite hiddenzone_mstruct;
  Ok (fmul delta_mstruct (py_max zero c)).

Definition calculate_s_Nstruct_amino_acids
    (delta_hiddenzone_Nstruct delta_lamina_Nstruct delta_sheath_Nstruct : float) : result float :=
  q ← truediv (fadd (fadd delta_hiddenzone_Nstruct delta_lamina_Nstruct) delta_sheath_Nstruct)
               N_MOLAR_MASS;
  Ok (fmul q _1E6).

Definition calculate_s_mstruct_sucrose
    (delta_hiddenzone_mstruct delta_lamina_mstruct delta_sheath_mstruct
     s_Nstruct_amino_acids_N : float) : result float :=
  s_Nstruct_amino_acids ← truediv s_Nstruct_amino_acids_N AMINO_ACIDS_N_RATIO;
  let s_mstruct_amino_acids_C := fmul s_Nstruct_amino_acids AMINO_ACIDS_C_RATIO in
  q ← truediv (fmul (fadd (fadd delta_hiddenzone_mstruct delta_lamina_mstruct)
                           delta_sheath_mstruct)
                     RATIO_SUCROSE_MSTRUCT)
               C_MOLAR_MASS;
  let s_mstruct_C := fmul q _1E6 in
  let s_mstruct_sucrose_C := fsub s_mstruct_C s_mstruct_amino_acids_C in
  Ok s_mstruct_sucrose_C.

Section Roots.
(** The power operator [x ** y] of Python floats is computed by the
    C library; it is a parameter of the model and may raise
    ([OverflowError], [ValueError], [ZeroDivisionError]). *)
Variable pow : float → float → result float.

Definition calculate_roots_mstruct_growth
    (sucrose amino_acids mstruct delta_t : float) (opt_postflo : bool)
    : result (float * float * float * float) :=
  c ← truediv sucrose mstruct;
  let conc_sucrose := py_max zero c in
  let Vmax := if opt_postflo then VMAX_ROOTS_GROWTH_POSTFLO
              else VMAX_ROOTS_GROWTH_PREFLO in
  let N := _1_8 in
  num ← pow conc_sucrose N;
  den1 ← pow conc_sucrose N;
  den2 ← pow K_ROOTS_GROWTH N;
  q ← truediv (fmul num Vmax) (fadd den1 den2);
  let mstruct_C_growth := fmul (fmul q delta_t) mstruct in
  mstruct_growth ← truediv (fmul (fmul mstruct_C_growth _1E_6) C_MOLAR_MASS)
                            RATIO_C_MSTRUCT_ROOTS;
  let Nstruct_growth := fmul mstruct_growth RATIO_N_MSTRUCT_ROOTS_ in
  n ← truediv Nstruct_growth N_MOLAR_MASS;
  let Nstruct_N_growth := py_min amino_acids (fmul n _1E6) in
  Ok (mstruct_C_growth, mstruct_growth, Nstruct_growth, Nstruct_N_growth).
End Roots.
End model.

(** ** [trunk/growthwheat/model.py] *)

Module trunk_model.
Definition calculate_lamina_L (leaf_L hgz_L : float) : result float :=
  let lamina_L := fsub leaf_L hgz_L in
  if fle lamina_L zero then
    Raise (Warning "the leaf is shorther than the hgz")
  else
    Ok (py_max zero lamina_L).
End trunk_model.

(** ** [trunk/growthwheat/simulation.py] *)

(** Values held by the attribute dictionaries: flags and floats. *)
Inductive value :=
  | VBool (b : bool)
  | VFloat (x : float).

(** Truth value of an object in a condition. *)
Definition truthy (v : value) : bool :=
  match v with
  | VBool b => b
  | VFloat x => negb (is_zero x)
  end.

(** An object used in float arithmetic: [True] is [1.0], [False] is [0.0]. *)
Definition to_float (v : value) : float :=
  match v with
  | VBool true => S754_finite false 4503599627370496 (-52)
  | VBool false => zero
  | VFloat x => x
  end.

#[export] Instance atom_eq_dec : EqDecision atom.
Proof. solve_decision. Defined.

#[export] Instance atom_countable : Countable atom.
Proof.
  refine (inj_countable'
            (λ a, match a with AInt n => inl n | AStr s => inr s end)
            (λ x, match x with inl n => AInt n | inr s => AStr s end) _).
  by intros [].
Defined.

(** The attribute dictionary of one entity, for instance
    [{'mstruct': 1e-4, 'sucrose': 100.0, 'leaf_is_emerged': False}]. *)
Abbreviation record := (gmap string value).

(** Dictionaries are mutable objects: the store maps the address of
    every attribute dictionary to its current content. *)
Abbreviation loc := positive.
Abbreviation store := (gmap loc record).

(** A dictionary from identifiers to attribute dictionaries. *)
Abbreviation table := (gmap key loc).

(** The keys ['hiddenzone'], ['organs'] and ['roots'] of [inputs] and
    [outputs]. *)
Inductive table_name :=
  | hiddenzone
  | organs
  | roots.

Record tables := mk_tables {
  t_hiddenzone : table;
  t_organs : table;
  t_roots : table;
}.

Definition get_table (n : table_name) (t : tables) : table :=
  match n with
  | hiddenzone => t_hiddenzone t
  | organs => t_organs t
  | roots => t_roots t
  end.

Definition set_table (n : table_name) (x : table) (t : tables) : tables :=
  match n with
  | hiddenzone => mk_tables x (t_organs t) (t_roots t)
  | organs => mk_tables (t_hiddenzone t) x (t_roots t)
  | roots => mk_tables (t_hiddenzone t) (t_organs t) x
  end.

(** A [Simulation] object and the dictionaries it refers to. *)
Record Simulation := mk_Simulation {
  heap : store;
  inputs : tables;
  outputs : tables;
  delta_t : float;
}.

Definition set_heap (h : store) (s : Simulation) : Simulation :=
  mk_Simulation h (inputs s) (outputs s) (delta_t s).

Definition set_outputs (t : tables) (s : Simulation) : Simulation :=
  mk_Simulation (heap s) (inputs s) t (delta_t s).

(** Statements: they transform the state and return or raise. *)
Definition M (A : Type) : Type := Simulation → Simulation * result A.

#[export] Instance M_ret : MRet M := λ A a s, (s, Ok a).

#[export] Instance M_bind : MBind M := λ A B k m s,
  match m s with
  | (s', Ok a) => k a s'
  | (s', Raise e) => (s', Raise e)
  end.

(** A call of a function that does not touch the dictionaries. *)
Definition lift {A} (r : result A) : M A := λ s, (s, r).

(** [self.inputs[n][k]] *)
Definition getitem_in (n : table_name) (k : key) : M loc := λ s,
  (s, match get_table n (inputs s) !! k with
      | Some l => Ok l
      | None => Raise (KeyError (OTuple k))
      end).

(** [self.outputs[n][k]] *)
Definition getitem_out (n : table_name) (k : key) : M loc := λ s,
  (s, match get_table n (outputs s) !! k with
      | Some l => Ok l
      | None => Raise (KeyError (OTuple k))
      end).

(** [self.outputs[n][k] = l] *)
Definition setitem_out (n : table_name) (k : key) (l : loc) : M unit := λ s,
  (set_outputs (set_table n (<[k := l]> (get_table n (outputs s))) (outputs s)) s, Ok tt).

(** [d[f]] on the attribute dictionary at address [l] *)
Definition getfield (l : loc) (f : string) : M value := λ s,
  (s, match (heap s !!! l) !! f with
      | Some v => Ok v
      | None => Raise (KeyError (OStr f))
      end).

(** [d[f] = v] on the attribute dictionary at address [l] *)
Definition setfield (l : loc) (f : string) (v : value) : M unit := λ s,
  (set_heap (<[l := <[f := v]> (heap s !!! l)]> (heap s)) s, Ok tt).

(** [d[f] += x] *)
Definition iadd (l : loc) (f : string) (x : float) : M unit :=
  v ← getfield l f;
  setfield l f (VFloat (fadd (to_float v) x)).

(** [d[f] -= x] *)
Definition isub (l : loc) (f : string) (x : float) : M unit :=
  v ← getfield l f;
  setfield l f (VFloat (fsub (to_float v) x)).

(** [self.inputs] *)
Definition get_inputs : M tables := λ s, (s, Ok (inputs s)).

(** [self.outputs.update(t)] with a dictionary [t] of three tables *)
Definition put_outputs (t : tables) : M unit := λ s, (set_outputs t s, Ok tt).

(** [self.delta_t] *)
Definition get_delta_t : M float := λ s, (s, Ok (delta_t s)).

(** [copy.deepcopy] of one attribute dictionary: a new dictionary with
    the same items (the items are immutable). *)
Definition deepcopy_record (l : loc) : M loc := λ s,
  let l' := fresh (dom (heap s)) in
  (set_heap (<[l' := heap s !!! l]> (heap s)) s, Ok l').

Fixpoint deepcopy_items (items : list (key * loc)) : M table :=
  match items with
  | [] => mret ∅
  | (k, l) :: items =>
      l' ← deepcopy_record l;
      t ← deepcopy_items items;
      mret (<[k := l']> t)
  end.

(** [copy.deepcopy] of a table whose attribute dictionaries are pairwise
    distinct objects. *)
Definition deepcopy (t : table) : M table := deepcopy_items (map_to_list t).

(** [for x in items: body(x)] *)
Fixpoint for_each {A} (items : list A) (body : A → M unit) : M unit :=
  match items with
  | [] => mret tt
  | x :: items => body x;; for_each items body
  end.

(** The functions of [model] that [simulation.py] calls; their module is
    not part of the sources, they are parameters of the step. *)
Record model_functions := {
  calculate_delta_mstruct_preE : float → float → result float;
  calculate_delta_mstruct_postE : float → float → float → result float;
  calculate_export_sucrose : float → float → float → result float;
  calculate_export_amino_acids : float → float → float → result float;
  calculate_s_mstruct_sucrose : float → float → float → result float;
  calculate_s_mstruct_amino_acids : float → float → float → result float;
  calculate_roots_mstruct_growth :
    float → float → float → float → result (float * float * float * float);
}.

(** [respiwheat.model.RespirationModel] *)
Record RespirationModel_functions := {
  R_growth : float → result float;
}.

Section Simulation.
Variable model : model_functions.
Variable RespirationModel : RespirationModel_functions.

(** [self.outputs.update({inputs_type: copy.deepcopy(all_inputs) ...})] *)
Definition update_outputs : M unit :=
  all_inputs ← get_inputs;
  all_hiddenzone ← deepcopy (get_table hiddenzone all_inputs);
  all_organs ← deepcopy (get_table organs all_inputs);
  all_roots ← deepcopy (get_table roots all_inputs);
  put_outputs (mk_tables all_hiddenzone all_organs all_roots).

(** The body shared by the two branches "lamina has emerged and is
    growing" and "mature lamina, growing sheath": they differ by the
    organ, by the specific weight ([SSLW] or [SSSW]) and by the metric
    (['green_area'] or ['area']).  Returns the delta of mstruct of the
    organ and the two exports. *)
Definition emerged_organ_growth (hiddenzone_inputs : loc) (organ_id : key)
    (SW metric : string) : M (float * float * float) :=
  curr_organ_inputs ← getitem_in organs organ_id;
  curr_organ_outputs ← getitem_out organs organ_id;
  sw ← getfield hiddenzone_inputs SW;
  organ_mstruct ← getfield curr_organ_inputs "mstruct";
  organ_metric ← getfield curr_organ_inputs metric;
  delta_organ_mstruct ←
    lift (calculate_delta_mstruct_postE model
            (to_float sw) (to_float organ_mstruct) (to_float organ_metric));
  sucrose ← getfield hiddenzone_inputs "sucrose";
  mstruct ← getfield hiddenzone_inputs "mstruct";
  export_sucrose ←
    lift (calculate_export_sucrose model delta_organ_mstruct (to_float sucrose) (to_float mstruct));
  amino_acids ← getfield hiddenzone_inputs "amino_acids";
  mstruct ← getfield hiddenzone_inputs "mstruct";
  export_amino_acids ←
    lift (calculate_export_amino_acids model
            delta_organ_mstruct (to_float amino_acids) (to_float mstruct));
  iadd curr_organ_outputs "mstruct" delta_organ_mstruct;;
  iadd curr_organ_outputs "sucrose" export_sucrose;;
  iadd curr_organ_outputs "amino_acids" export_amino_acids;;
  setitem_out organs organ_id curr_organ_outputs;;
  mret (delta_organ_mstruct, export_sucrose, export_amino_acids).

(** Body of [for hiddenzone_id, hiddenzone_inputs in
    all_hiddenzone_inputs.iteritems()]. *)
Definition hiddenzone_body (item : key * loc) : M unit :=
  let '(hiddenzone_id, hiddenzone_inputs) := item in
  curr_hiddenzone_outputs ← getitem_out hiddenzone hiddenzone_id;
  leaf_L ← getfield hiddenzone_inputs "leaf_L";
  delta_leaf_L ← getfield hiddenzone_inputs "delta_leaf_L";
  delta_mstruct ←
    lift (calculate_delta_mstruct_preE model (to_float leaf_L) (to_float delta_leaf_L));
  leaf_is_emerged ← getfield hiddenzone_inputs "leaf_is_emerged";
  '(delta_lamina_mstruct, delta_sheath_mstruct, export_sucrose, export_amino_acids) ←
    (if truthy leaf_is_emerged then
       let lamina_id := hiddenzone_id ++ [AStr "blade"] in
       lamina ← getitem_in organs lamina_id;
       is_growing ← getfield lamina "is_growing";
       if truthy is_growing then
         '(delta_lamina_mstruct, export_sucrose, export_amino_acids) ←
           emerged_organ_growth hiddenzone_inputs lamina_id "SSLW" "green_area";
         mret (delta_lamina_mstruct, zero, export_sucrose, export_amino_acids)
       else
         let sheath_id := hiddenzone_id ++ [AStr "sheath"] in
         '(delta_sheath_mstruct, export_sucrose, export_amino_acids) ←
           emerged_organ_growth hiddenzone_inputs sheath_id "SSSW" "area";
         mret (zero, delta_sheath_mstruct, export_sucrose, export_amino_acids)
     else
       mret (zero, zero, zero, zero));
  sucrose_consumption_mstruct ←
    lift (calculate_s_mstruct_sucrose model
            delta_mstruct delta_lamina_mstruct delta_sheath_mstruct);
  AA_consumption_mstruct ←
    lift (calculate_s_mstruct_amino_acids model
            delta_mstruct delta_lamina_mstruct delta_sheath_mstruct);
  Respi_growth ← lift (R_growth RespirationModel sucrose_consumption_mstruct);
  iadd curr_hiddenzone_outputs "mstruct" delta_mstruct;;
  isub curr_hiddenzone_outputs "sucrose"
    (fadd (fadd sucrose_consumption_mstruct Respi_growth) export_sucrose);;
  isub curr_hiddenzone_outputs "amino_acids" (fadd AA_consumption_mstruct export_amino_acids);;
  setitem_out hiddenzone hiddenzone_id curr_hiddenzone_outputs.

(** Body of [for root_id, root_inputs in all_roots_inputs.iteritems()]. *)
Definition roots_body (item : key * loc) : M unit :=
  let '(root_id, root_inputs) := item in
  curr_root_outputs ← getitem_out roots root_id;
  sucrose ← getfield root_inputs "sucrose";
  amino_acids ← getfield root_inputs "amino_acids";
  mstruct ← getfield root_inputs "mstruct";
  dt ← get_delta_t;
  '(mstruct_C_growth, mstruct_growth, Nstruct_growth, Nstruct_N_growth) ←
    lift (calculate_roots_mstruct_growth model
            (to_float sucrose) (to_float amino_acids) (to_float mstruct) dt);
  Respi_growth ← lift (R_growth RespirationModel mstruct_C_growth);
  iadd curr_root_outputs "mstruct" mstruct_growth;;
  isub curr_root_outputs "sucrose" mstruct_C_growth;;
  iadd curr_root_outputs "Nstruct" Nstruct_growth;;
  isub curr_root_outputs "amino_acids" Nstruct_N_growth;;
  setitem_out roots root_id curr_root_outputs.

(** [Simulation.run].  A dictionary is iterated in an order the
    language does not fix: the two orders are arguments, each a
    permutation of the items of the table iterated. *)
Definition run (hiddenzone_items roots_items : list (key * loc)) : M unit :=
  update_outputs;;
  for_each hiddenzone_items hiddenzone_body;;
  for_each roots_items roots_body.

End Simulation.

(** ** Views of the state *)

(** The content of a table: the attribute dictionary of every identifier. *)
Definition contents (h : store) (t : table) : gmap key record :=
  (λ l, h !!! l) <$> t.

Record snapshot := mk_snapshot {
  s_hiddenzone : gmap key record;
  s_organs : gmap key record;
  s_roots : gmap key record;
}.

Definition snapshot_of (h : store) (t : tables) : snapshot :=
  mk_snapshot (contents h (t_hiddenzone t)) (contents h (t_organs t)) (contents h (t_roots t)).

Definition inputs_snapshot (s : Simulation) : snapshot := snapshot_of (heap s) (inputs s).
Definition outputs_snapshot (s : Simulation) : snapshot := snapshot_of (heap s) (outputs s).

(** The output snapshot a step produces: none when the step raises. *)
Definition produced (o : Simulation * result unit) : option snapshot :=
  match o with
  | (s, Ok _) => Some (outputs_snapshot s)
  | (_, Raise _) => None
  end.

(** Addresses of the attribute dictionaries of three tables. *)
Definition locs (t : tables) : list loc :=
  (map_to_list (t_hiddenzone t)).*2 ++ (map_to_list (t_organs t)).*2
    ++ (map_to_list (t_roots t)).*2.

(** Input snapshots as [converter.from_dataframes] builds them: every
    identifier has an attribute dictionary of its own. *)
Definition well_formed (s : Simulation) : Prop :=
  NoDup (locs (inputs s)) ∧ Forall (λ l, is_Some (heap s !! l)) (locs (inputs s)).

(** ** Outcomes and footprints of statements *)

(** The state a statement ends in when it does not raise. *)
Definition exec {A} (m : M A) (s : Simulation) : option Simulation :=
  match m s with
  | (s', Ok _) => Some s'
  | (_, Raise _) => None
  end.

(** A property of the outcome of a statement: [Qok] of the value and
    state it returns with, [Qex] of the exception and state it raises
    with. *)
Definition wp {A} (m : M A) (Qok : A → Simulation → Prop) (Qex : exn → Simulation → Prop)
    (s : Simulation) : Prop :=
  match m s with
  | (s', Ok a) => Qok a s'
  | (s', Raise e) => Qex e s'
  end.

(** During the two loops of a step [inputs] and [outputs] refer to the
    same tables [I] and [O]. *)
Definition at_tables (I O : tables) (s : Simulation) : Prop :=
  inputs s = I ∧ outputs s = O.

(** Two states hold the same dictionaries at the addresses [F]. *)
Definition agree (F : gset loc) (s1 s2 : Simulation) : Prop :=
  delta_t s1 = delta_t s2 ∧ ∀ l, l ∈ F → heap s1 !! l = heap s2 !! l.

(** [m] mutates no dictionary outside [W] and rebinds no table. *)
Definition frame (I O : tables) (W : gset loc) {A} (m : M A) : Prop :=
  ∀ s, at_tables I O s →
    at_tables I O (m s).1 ∧
    delta_t (m s).1 = delta_t s ∧
    ∀ l, l ∉ W → heap (m s).1 !! l = heap s !! l.

(** The outcome of [m] depends on the dictionaries at [R] only. *)
Definition local (I O : tables) (R : gset loc) {A} (m : M A) : Prop :=
  ∀ s1 s2, at_tables I O s1 → at_tables I O s2 → agree R s1 s2 →
    (m s1).2 = (m s2).2 ∧ agree R (m s1).1 (m s2).1.

Definition footprint (I O : tables) (R W : gset loc) {A} (m : M A) : Prop :=
  frame I O W m ∧ local I O R m.

(** The address a table binds an identifier to, as a set. *)
Definition loc_of (t : table) (k : key) : gset loc :=
  match t !! k with
  | Some l => {[ l ]}
  | None => ∅
  end.

(** Dictionaries the body of the first loop may write for a hidden zone:
    its output record and the output records of its blade and sheath. *)
Definition hiddenzone_writes (O : tables) (hiddenzone_id : key) : gset loc :=
  loc_of (get_table hiddenzone O) hiddenzone_id
  ∪ loc_of (get_table organs O) (hiddenzone_id ++ [AStr "blade"])
  ∪ loc_of (get_table organs O) (hiddenzone_id ++ [AStr "sheath"]).

(** Dictionaries it may read. *)
Definition hiddenzone_reads (I O : tables) (item : key * loc) : gset loc :=
  {[ item.2 ]}
  ∪ loc_of (get_table organs I) (item.1 ++ [AStr "blade"])
  ∪ loc_of (get_table organs I) (item.1 ++ [AStr "sheath"])
  ∪ hiddenzone_writes O item.1.

Definition roots_writes (O : tables) (root_id : key) : gset loc :=
  loc_of (get_table roots O) root_id.

Definition roots_reads (O : tables) (item : key * loc) : gset loc :=
  {[ item.2 ]} ∪ roots_writes O item.1.

(** The output tables are a deep copy made from the state [s]: they
    bind the identifiers of the input tables to new dictionaries, no two
    of them the same. *)
Definition deep_copy_of (s : Simulation) (O : tables) : Prop :=
  (∀ n, dom (get_table n O) = dom (get_table n (inputs s))) ∧
  (∀ n k l, get_table n O !! k = Some l → l ∉ dom (heap s)) ∧
  (∀ n n' k k' l, get_table n O !! k = Some l → get_table n' O !! k' = Some l →
     n = n' ∧ k = k').

(** Every identifier of the input tables is bound to a dictionary. *)
Definition allocated (s : Simulation) : Prop :=
  ∀ n k l, get_table n (inputs s) !! k = Some l → is_Some (heap s !! l).

(** [s1] is the state [s] in which [outputs] has been rebound to a deep
    copy of [inputs]: the dictionaries of [s] are untouched, and every
    output dictionary holds the items of the input dictionary with the
    same identifier. *)
Definition copied (s s1 : Simulation) : Prop :=
  inputs s1 = inputs s ∧
  delta_t s1 = delta_t s ∧
  (∀ l, is_Some (heap s !! l) → heap s1 !! l = heap s !! l) ∧
  deep_copy_of s (outputs s1) ∧
  (∀ n k l', get_table n (outputs s1) !! k = Some l' →
     ∃ l, get_table n (inputs s) !! k = Some l ∧ heap s1 !! l' = Some (heap s !!! l)).

(** Addresses bound by three tables, as a set. *)
Definition all_locs (t : tables) : gset loc :=
  map_img (t_hiddenzone t) ∪ map_img (t_organs t) ∪ map_img (t_roots t).

(** The organ an emerged hidden zone feeds, by the flag [is_growing] of
    its lamina: the lamina while it grows (phase b), the sheath once the
    lamina is mature (phase c); with the specific weight and the metric
    its growth is computed from. *)
Definition target_organ (is_growing : value) : string :=
  if truthy is_growing then "blade" else "sheath".

Definition target_weight (is_growing : value) : string :=
  if truthy is_growing then "SSLW" else "SSSW".

Definition target_metric (is_growing : value) : string :=
  if truthy is_growing then "green_area" else "area".

(** The hidden zone [hiddenzone_id], whose input record is at [l], has
    emerged and the organ [target] it feeds has no input record: its
    lamina, or its sheath when the lamina is there and not growing. *)
Definition absent_target (s : Simulation) (hiddenzone_id : key) (l : loc) (target : key)
    : Prop :=
  ∃ leaf_is_emerged,
    (heap s !!! l) !! "leaf_is_emerged" = Some leaf_is_emerged ∧
    truthy leaf_is_emerged = true ∧
    ((target = hiddenzone_id ++ [AStr "blade"] ∧
      t_organs (inputs s) !! target = None)
     ∨
     (target = hiddenzone_id ++ [AStr "sheath"] ∧
      t_organs (inputs s) !! target = None ∧
      ∃ lb is_growing,
        t_organs (inputs s) !! (hiddenzone_id ++ [AStr "blade"]) = Some lb ∧
        (heap s !!! lb) !! "is_growing" = Some is_growing ∧
        truthy is_growing = false)).

(** ** Quantities named by the specification *)

Module spec.
Import parameters.

(** Total carbon used for the growth of the three structural masses
    (micromol C). *)
Definition total_carbon_demand (delta_hiddenzone_mstruct delta_lamina_mstruct
                                delta_sheath_mstruct : float) : float :=
  fmul (fdiv (fmul (fadd (fadd delta_hiddenzone_mstruct delta_lamina_mstruct)
                         delta_sheath_mstruct)
                   RATIO_SUCROSE_MSTRUCT)
             C_MOLAR_MASS)
       _1E6.

(** Carbon brought by the amino acids that supply a nitrogen
    consumption (micromol C). *)
Definition amino_acids_carbon (s_Nstruct_amino_acids_N : float) : float :=
  fmul (fdiv s_Nstruct_amino_acids_N AMINO_ACIDS_N_RATIO) AMINO_ACIDS_C_RATIO.

(** Nitrogen consumed by the growth of the three structural nitrogen
    masses (micromol N). *)
Definition nitrogen_consumption (delta_hiddenzone_Nstruct delta_lamina_Nstruct
                                 delta_sheath_Nstruct : float) : float :=
  fmul (fdiv (fadd (fadd delta_hiddenzone_Nstruct delta_lamina_Nstruct) delta_sheath_Nstruct)
             N_MOLAR_MASS)
       _1E6.

(** The two-state elongation law: linear interpolation towards a
    ceiling until the pseudo age reaches [t_end], nothing afterwards. *)
Definition growth_towards (t_end ceiling enclosed_mstruct pseudo_age delta_pseudo_age : float)
    : result float :=
  if flt pseudo_age t_end then
    q ← truediv (fsub ceiling enclosed_mstruct) (fsub t_end pseudo_age);
    Ok (fmul q delta_pseudo_age)
  else
    Ok zero.

(** Nitrogen demand of a root growth (micromol N). *)
Definition root_nitrogen_demand (Nstruct_growth : float) : float :=
  fmul (fdiv Nstruct_growth N_MOLAR_MASS) _1E6.

(** What the specification says of [calculate_lamina_L] at one input. *)
Definition lamina_L_claim (leaf_L hgz_L : float) : Prop :=
  let d := fsub leaf_L hgz_L in
  ((∃ e, trunk_model.calculate_lamina_L leaf_L hgz_L = Raise e) ↔ fle d zero = true) ∧
  (fle d zero = false →
     trunk_model.calculate_lamina_L leaf_L hgz_L = Ok d ∧
     flt zero d = true ∧
     py_max zero d = d).

(** What the specification says of a step in which an emerged hidden
    zone feeds an organ that has no record: the step raises the lookup
    error of that organ and produces no output snapshot, the outputs
    being those of before the step. *)
Definition missing_organ_aborts_atomically
    (model : model_functions) (RespirationModel : RespirationModel_functions)
    (s : Simulation) (hiddenzone_items roots_items : list (key * loc)) : Prop :=
  ∀ hiddenzone_id l target,
    t_hiddenzone (inputs s) !! hiddenzone_id = Some l →
    absent_target s hiddenzone_id l target →
    ∃ s', run model RespirationModel hiddenzone_items roots_items s
            = (s', Raise (KeyError (OTuple target))) ∧
          outputs_snapshot s' = outputs_snapshot s.

(** What "the amount exported from the hidden zone" can denote in a
    step: the mstruct the hidden zone loses, or the sucrose or the amino
    acids the organ receives. *)
Inductive exported_amount := mstruct_consumed | sucrose_exported | amino_acids_exported.

(** The amount [d] is exported: it is taken from the mstruct of the
    hidden zone, or it is what the pool of the organ gains. *)
Definition exports (a : exported_amount) (d : float)
    (hiddenzone_inputs hiddenzone_outputs organ_inputs organ_outputs : record) : Prop :=
  match a with
  | mstruct_consumed =>
      ∃ x, hiddenzone_inputs !! "mstruct" = Some x ∧
           hiddenzone_outputs !! "mstruct" = Some (VFloat (fsub (to_float x) d))
  | sucrose_exported =>
      ∃ x, organ_inputs !! "sucrose" = Some x ∧
           organ_outputs !! "sucrose" = Some (VFloat (fadd (to_float x) d))
  | amino_acids_exported =>
      ∃ x, organ_inputs !! "amino_acids" = Some x ∧
           organ_outputs !! "amino_acids" = Some (VFloat (fadd (to_float x) d))
  end.

(** What the specification says of every emerged hidden zone after a
    step that completes: the amount exported from the hidden zone is the
    delta of mstruct added to the output record of the organ it feeds
    (the lamina while it grows, the sheath afterwards). *)
Definition export_equals_organ_delta (a : exported_amount)
    (model : model_functions) (RespirationModel : RespirationModel_functions)
    (s : Simulation) (hiddenzone_items roots_items : list (key * loc)) : Prop :=
  ∀ s' hiddenzone_id l leaf_is_emerged,
    run model RespirationModel hiddenzone_items roots_items s = (s', Ok tt) →
    t_hiddenzone (inputs s) !! hiddenzone_id = Some l →
    (heap s !!! l) !! "leaf_is_emerged" = Some leaf_is_emerged →
    truthy leaf_is_emerged = true →
    ∃ lb is_growing li sw organ_mstruct organ_metric delta_organ_mstruct
      hiddenzone_outputs organ_outputs,
      let organ_id := hiddenzone_id ++ [AStr (target_organ is_growing)] in
      t_organs (inputs s) !! (hiddenzone_id ++ [AStr "blade"]) = Some lb ∧
      (heap s !!! lb) !! "is_growing" = Some is_growing ∧
      t_organs (inputs s) !! organ_id = Some li ∧
      (heap s !!! l) !! target_weight is_growing = Some sw ∧
      (heap s !!! li) !! "mstruct" = Some organ_mstruct ∧
      (heap s !!! li) !! target_metric is_growing = Some organ_metric ∧
      calculate_delta_mstruct_postE model (to_float sw) (to_float organ_mstruct)
        (to_float organ_metric) = Ok delta_organ_mstruct ∧
      s_hiddenzone (outputs_snapshot s') !! hiddenzone_id = Some hiddenzone_outputs ∧
      s_organs (outputs_snapshot s') !! organ_id = Some organ_outputs ∧
      organ_outputs !! "mstruct"
        = Some (VFloat (fadd (to_float organ_mstruct) delta_organ_mstruct)) ∧
      exports a delta_organ_mstruct (heap s !!! l) hiddenzone_outputs
        (heap s !!! li) organ_outputs.
End spec.

(** ** Sample values *)

Module sample.
Import (notations) PrimFloat.

Definition one : float := Eval vm_compute in lit 1.
Definition two : float := Eval vm_compute in lit 2.
Definition tenth : float := Eval vm_compute in lit 0.1.
Definition half : float := Eval vm_compute in lit 0.5.
Definition hundred : float := Eval vm_compute in lit 100.

(** Two values of the C library's power function:
    [0.0 ** 1.8 = 0.0] and [1250.0 ** 1.8 = 375351.3856191974]. *)
Definition pow_1250_1_8 : float := Eval vm_compute in lit 375351.3856191974.

Definition pow (x y : float) : result float :=
  if is_zero x then Ok zero
  else if SFeqb x parameters.K_ROOTS_GROWTH then Ok pow_1250_1_8
  else Raise OverflowError.

Definition ratio_sucrose_mstruct : float := Eval vm_compute in lit 58656.667.
Definition ratio_amino_acids_mstruct : float := Eval vm_compute in lit 5500.

(** An instance of the functions the step calls: the laws of
    [branches/tillering_hack] where they have the same parameters, the
    two conversion ratios of [trunk/trunk/growthwheat/parameters.py] for
    the consumptions, a linear law for the hidden growth and a tenth of
    the consumed sucrose for the respiration. *)
Definition model : model_functions := {|
  calculate_delta_mstruct_preE := λ leaf_L delta_leaf_L, Ok (fmul leaf_L delta_leaf_L);
  calculate_delta_mstruct_postE := λ SW mstruct area,
    Ok (model.calculate_delta_emerged_tissue_mstruct SW mstruct area);
  calculate_export_sucrose := model.calculate_export;
  calculate_export_amino_acids := model.calculate_export;
  calculate_s_mstruct_sucrose := λ d1 d2 d3,
    Ok (fmul (fadd (fadd d1 d2) d3) ratio_sucrose_mstruct);
  calculate_s_mstruct_amino_acids := λ d1 d2 d3,
    Ok (fmul (fadd (fadd d1 d2) d3) ratio_amino_acids_mstruct);
  calculate_roots_mstruct_growth := λ sucrose amino_acids mstruct delta_t,
    model.calculate_roots_mstruct_growth pow sucrose amino_acids mstruct delta_t false;
|}.

Definition RespirationModel : RespirationModel_functions := {|
  R_growth := λ x, Ok (fmul x tenth);
|}.

Definition vfloat (x : PrimFloat.float) : value := VFloat (lit x).

Definition hiddenzone_1 : key := [AInt 1; AStr "MS"; AInt 1].
Definition hiddenzone_2 : key := [AInt 1; AStr "MS"; AInt 2].
Definition blade_2 : key := [AInt 1; AStr "MS"; AInt 2; AStr "blade"].
Definition roots_1 : key := [AInt 1; AStr "MS"].

(** A hidden zone that has not emerged. *)
Definition hiddenzone_1_inputs : record :=
  {[ "leaf_L" := vfloat 0.05; "delta_leaf_L" := vfloat 0.002; "SSLW" := vfloat 22;
     "SSSW" := vfloat 110; "leaf_is_emerged" := VBool false; "sucrose" := vfloat 100;
     "amino_acids" := vfloat 10; "mstruct" := vfloat 1e-4 ]}.

(** An emerged hidden zone. *)
Definition hiddenzone_2_inputs : record :=
  <["leaf_is_emerged" := VBool true]> hiddenzone_1_inputs.

(** Its lamina, growing. *)
Definition blade_2_inputs : record :=
  {[ "is_growing" := VBool true; "mstruct" := vfloat 0.001; "green_area" := vfloat 0.0001;
     "sucrose" := vfloat 1; "amino_acids" := vfloat 1 ]}.

Definition roots_1_inputs : record :=
  {[ "sucrose" := vfloat 0; "amino_acids" := vfloat 1; "mstruct" := vfloat 1;
     "Nstruct" := vfloat 0.01 ]}.

Definition dictionaries : store :=
  {[ 1%positive := hiddenzone_1_inputs; 2%positive := hiddenzone_2_inputs;
     3%positive := blade_2_inputs; 4%positive := roots_1_inputs ]}.

Definition hour : float := Eval vm_compute in lit 3600.

(** A simulation initialised with two hidden zones, a lamina and a root,
    before its first step. *)
Definition simulation : Simulation := {|
  heap := dictionaries;
  inputs := mk_tables {[ hiddenzone_1 := 1%positive; hiddenzone_2 := 2%positive ]}
                      {[ blade_2 := 3%positive ]}
                      {[ roots_1 := 4%positive ]};
  outputs := mk_tables ∅ ∅ ∅;
  delta_t := hour;
|}.

(** Two orders in which the first loop may visit the hidden zones, and
    the one order of the second loop. *)
Definition hiddenzone_items : list (key * loc) :=
  [(hiddenzone_1, 1%positive); (hiddenzone_2, 2%positive)].

Definition hiddenzone_items' : list (key * loc) :=
  [(hiddenzone_2, 2%positive); (hiddenzone_1, 1%positive)].

Definition roots_items : list (key * loc) := [(roots_1, 4%positive)].

(** The same without the record of the lamina. *)
Definition simulation_without_blade : Simulation := {|
  heap := dictionaries;
  inputs := mk_tables {[ hiddenzone_1 := 1%positive; hiddenzone_2 := 2%positive ]}
                      ∅
                      {[ roots_1 := 4%positive ]};
  outputs := mk_tables ∅ ∅ ∅;
  delta_t := hour;
|}.

(** A third hidden zone, emerged, whose lamina is mature and whose
    sheath grows. *)
Definition hiddenzone_3 : key := [AInt 1; AStr "MS"; AInt 3].
Definition blade_3 : key := [AInt 1; AStr "MS"; AInt 3; AStr "blade"].
Definition sheath_3 : key := [AInt 1; AStr "MS"; AInt 3; AStr "sheath"].

Definition hiddenzone_3_inputs : record :=
  <["sucrose" := vfloat 50]> (<["mstruct" := vfloat 2e-4]> hiddenzone_2_inputs).

Definition blade_3_inputs : record :=
  {[ "is_growing" := VBool false; "mstruct" := vfloat 0.002; "green_area" := vfloat 0.0001;
     "sucrose" := vfloat 1; "amino_acids" := vfloat 1 ]}.

Definition sheath_3_inputs : record :=
  {[ "is_growing" := VBool true; "mstruct" := vfloat 0.001; "green_area" := vfloat 0.00002;
     "area" := vfloat 0.00002; "sucrose" := vfloat 2; "amino_acids" := vfloat 1 ]}.

(** The sample with the third hidden zone and its two organs. *)
Definition simulation_with_sheath : Simulation := {|
  heap := <[5%positive := hiddenzone_3_inputs]>
            (<[6%positive := blade_3_inputs]>
               (<[7%positive := sheath_3_inputs]> dictionaries));
  inputs := mk_tables {[ hiddenzone_1 := 1%positive; hiddenzone_2 := 2%positive;
                         hiddenzone_3 := 5%positive ]}
                      {[ blade_2 := 3%positive; blade_3 := 6%positive;
                         sheath_3 := 7%positive ]}
                      {[ roots_1 := 4%positive ]};
  outputs := mk_tables ∅ ∅ ∅;
  delta_t := hour;
|}.

Definition hiddenzone_items_with_sheath : list (key * loc) :=
  [(hiddenzone_3, 5%positive); (hiddenzone_1, 1%positive); (hiddenzone_2, 2%positive)].
End sample.

(** * Properties *)

(** ** Comparisons of binary64 floats *)

Lemma SFcompare_antisym (x y : float) :
  SFcompare y x = CompOpp <$> SFcompare x y.
Proof.
  destruct x as [sx|sx| |sx mx ex], y as [sy|sy| |sy my ey]; simpl;
    try (destruct sx); try (destruct sy); try reflexivity.
  - rewrite (Z.compare_antisym ey ex).
    destruct (ey ?= ex)%Z; simpl; try reflexivity.
    rewrite (Pos.compare_cont_antisym mx my Eq). reflexivity.
  - rewrite (Z.compare_antisym ey ex).
    destruct (ey ?= ex)%Z; simpl; try reflexivity.
    rewrite (Pos.compare_cont_antisym mx my Eq). simpl. reflexivity.
Qed.

Lemma flt_asym (x y : float) : flt x y = true → flt y x = false.
Proof.
  unfold flt, SFltb. rewrite (SFcompare_antisym x y).
  destruct (SFcompare x y) as [[]|]; simpl; congruence.
Qed.

Lemma flt_irrefl (x : float) : flt x x = false.
Proof.
  destruct (flt x x) eqn:E; [|reflexivity].
  pose proof (flt_asym _ _ E). congruence.
Qed.

Lemma fle_not_flt (x y : float) : fle x y = true → flt y x = false.
Proof.
  unfold fle, flt, SFleb, SFltb. rewrite (SFcompare_antisym x y).
  destruct (SFcompare x y) as [[]|]; simpl; congruence.
Qed.

Lemma flt_zero_not_is_zero (x : float) : flt zero x = true → is_zero x = false.
Proof. destruct x as [[]|[]| |[] m e]; cbv; congruence. Qed.

(** A number that is not [<= 0] is [> 0]; only NaN is neither. *)
Lemma not_fle_zero_flt (x : float) :
  is_nan x = false → fle x zero = false → flt zero x = true.
Proof. destruct x as [[]|[]| |[] m e]; cbv; congruence. Qed.

Lemma py_min_not_above (a b : float) : flt a (py_min a b) = false.
Proof.
  unfold py_min. destruct (flt b a) eqn:E.
  - by apply flt_asym.
  - apply flt_irrefl.
Qed.

(** ** The growth laws *)

Section GrowthLaws.
Import parameters model.

(** C3. Once the pseudo age of the leaf has reached [te], the
    post-emergence law of the enclosed leaf returns exactly [0],
    whatever the ceiling [leaf_pseudostem_L * LSSW] (finite or not),
    the enclosed mass and the delta of pseudo age. *)
Theorem calculate_delta_leaf_enclosed_mstruct_postE_terminal
    (delta_leaf_pseudo_age leaf_pseudo_age leaf_pseudostem_L enclosed_mstruct LSSW : float) :
  fle te leaf_pseudo_age = true →
  calculate_delta_leaf_enclosed_mstruct_postE
    delta_leaf_pseudo_age leaf_pseudo_age leaf_pseudostem_L enclosed_mstruct LSSW = Ok zero.
Proof.
  intros Hage. unfold calculate_delta_leaf_enclosed_mstruct_postE.
  by rewrite (fle_not_flt _ _ Hage).
Qed.

Lemma calculate_delta_leaf_enclosed_mstruct_postE_terminal_witness :
  fle te te = true ∧
  calculate_delta_leaf_enclosed_mstruct_postE sample.one te sample.tenth sample.half sample.two
    = Ok zero.
Proof.
  split; [reflexivity|].
  apply (calculate_delta_leaf_enclosed_mstruct_postE_terminal
           sample.one te sample.tenth sample.half sample.two).
  reflexivity.
Defined.

(** C4. With an undetermined (NaN) final internode length the ceiling
    of the post-ligulation law is the current length times the lineic
    weight, and the returned delta is the two-state law run towards
    that ceiling, in which the NaN does not occur; with a determined
    final length the ceiling is [min(internode_pseudostem_L,
    internode_Lmax) * LSIW]. *)
Theorem calculate_delta_internode_enclosed_mstruct_postL_ceiling
    (delta_internode_pseudo_age internode_pseudo_age internode_L
     internode_pseudostem_L internode_Lmax LSIW enclosed_mstruct : float) :
  (is_nan internode_Lmax = true →
     enclosed_mstruct_max_postL internode_L internode_pseudostem_L internode_Lmax LSIW
       = fmul internode_L LSIW ∧
     calculate_delta_internode_enclosed_mstruct_postL
       delta_internode_pseudo_age internode_pseudo_age internode_L
       internode_pseudostem_L internode_Lmax LSIW enclosed_mstruct
       = spec.growth_towards te_IN (fmul internode_L LSIW) enclosed_mstruct
           internode_pseudo_age delta_internode_pseudo_age) ∧
  (is_nan internode_Lmax = false →
     enclosed_mstruct_max_postL internode_L internode_pseudostem_L internode_Lmax LSIW
       = fmul (py_min internode_pseudostem_L internode_Lmax) LSIW ∧
     calculate_delta_internode_enclosed_mstruct_postL
       delta_internode_pseudo_age internode_pseudo_age internode_L
       internode_pseudostem_L internode_Lmax LSIW enclosed_mstruct
       = spec.growth_towards te_IN (fmul (py_min internode_pseudostem_L internode_Lmax) LSIW)
           enclosed_mstruct internode_pseudo_age delta_internode_pseudo_age).
Proof.
  unfold calculate_delta_internode_enclosed_mstruct_postL, enclosed_mstruct_max_postL,
    spec.growth_towards.
  split; intros ->; split; reflexivity.
Qed.

Lemma calculate_delta_internode_enclosed_mstruct_postL_ceiling_witness :
  (is_nan nan = true ∧
   calculate_delta_internode_enclosed_mstruct_postL
     sample.hundred sample.one sample.tenth sample.half nan sample.two zero
     = spec.growth_towards te_IN (fmul sample.tenth sample.two) zero sample.one sample.hundred) ∧
  (is_nan sample.one = false ∧
   enclosed_mstruct_max_postL sample.tenth sample.half sample.one sample.two
     = fmul (py_min sample.half sample.one) sample.two).
Proof.
  split; (split; [reflexivity|]).
  - apply (calculate_delta_internode_enclosed_mstruct_postL_ceiling
             sample.hundred sample.one sample.tenth sample.half nan sample.two zero).
    reflexivity.
  - apply (calculate_delta_internode_enclosed_mstruct_postL_ceiling
             sample.hundred sample.one sample.tenth sample.half sample.one sample.two zero).
    reflexivity.
Defined.

(** C5. The sucrose consumption is the total carbon demand of the
    summed mstruct deltas minus the carbon brought by the amino-acid
    consumption; neither division can raise.  Chained after
    [calculate_s_Nstruct_amino_acids], the nitrogen consumption is
    computed first and its carbon is netted out. *)
Theorem calculate_s_mstruct_sucrose_nets_out_amino_acids
    (delta_hiddenzone_mstruct delta_lamina_mstruct delta_sheath_mstruct : float) :
  (∀ s_Nstruct_amino_acids_N,
     calculate_s_mstruct_sucrose delta_hiddenzone_mstruct delta_lamina_mstruct
       delta_sheath_mstruct s_Nstruct_amino_acids_N
     = Ok (fsub (spec.total_carbon_demand delta_hiddenzone_mstruct delta_lamina_mstruct
                   delta_sheath_mstruct)
                (spec.amino_acids_carbon s_Nstruct_amino_acids_N))) ∧
  (∀ delta_hiddenzone_Nstruct delta_lamina_Nstruct delta_sheath_Nstruct,
     (s ← calculate_s_Nstruct_amino_acids delta_hiddenzone_Nstruct delta_lamina_Nstruct
            delta_sheath_Nstruct;
      calculate_s_mstruct_sucrose delta_hiddenzone_mstruct delta_lamina_mstruct
        delta_sheath_mstruct s)
     = Ok (fsub (spec.total_carbon_demand delta_hiddenzone_mstruct delta_lamina_mstruct
                   delta_sheath_mstruct)
                (spec.amino_acids_carbon
                   (spec.nitrogen_consumption delta_hiddenzone_Nstruct delta_lamina_Nstruct
                      delta_sheath_Nstruct)))).
Proof. split; reflexivity. Qed.

(** C6. For a root with [mstruct > 0] on which the power operator
    returns and the Hill denominator is not zero, the root growth law
    returns, and its nitrogen growth is [min(amino_acids, demand)]
    where the demand is [Nstruct_growth] converted to micromol N; this
    nitrogen growth is never greater than [amino_acids]. *)
Theorem calculate_roots_mstruct_growth_nitrogen_cap
    (pow : float → float → result float)
    (sucrose amino_acids mstruct delta_t : float) (opt_postflo : bool) (p pK : float) :
  flt zero mstruct = true →
  pow (py_max zero (fdiv sucrose mstruct)) _1_8 = Ok p →
  pow K_ROOTS_GROWTH _1_8 = Ok pK →
  is_zero (fadd p pK) = false →
  ∃ mstruct_C_growth mstruct_growth Nstruct_growth Nstruct_N_growth,
    calculate_roots_mstruct_growth pow sucrose amino_acids mstruct delta_t opt_postflo
      = Ok (mstruct_C_growth, mstruct_growth, Nstruct_growth, Nstruct_N_growth) ∧
    Nstruct_growth = fmul mstruct_growth RATIO_N_MSTRUCT_ROOTS_ ∧
    Nstruct_N_growth = py_min amino_acids (spec.root_nitrogen_demand Nstruct_growth) ∧
    flt amino_acids Nstruct_N_growth = false.
Proof.
  intros Hm Hp HpK Hden.
  unfold calculate_roots_mstruct_growth, truediv.
  rewrite (flt_zero_not_is_zero _ Hm). cbn [mbind result_bind].
  rewrite Hp, HpK. cbn [mbind result_bind]. rewrite Hden.
  cbn -[fmul fdiv fadd py_min].
  do 4 eexists. split; [reflexivity|].
  split; [reflexivity|]. split; [reflexivity|].
  apply py_min_not_above.
Qed.

Lemma calculate_roots_mstruct_growth_nitrogen_cap_witness :
  ∃ mstruct_C_growth mstruct_growth Nstruct_growth Nstruct_N_growth,
    calculate_roots_mstruct_growth sample.pow zero sample.hundred sample.one sample.hundred false
      = Ok (mstruct_C_growth, mstruct_growth, Nstruct_growth, Nstruct_N_growth) ∧
    Nstruct_growth = fmul mstruct_growth RATIO_N_MSTRUCT_ROOTS_ ∧
    Nstruct_N_growth = py_min sample.hundred (spec.root_nitrogen_demand Nstruct_growth) ∧
    flt sample.hundred Nstruct_N_growth = false.
Proof.
  apply (calculate_roots_mstruct_growth_nitrogen_cap sample.pow
           zero sample.hundred sample.one sample.hundred false
           zero sample.pow_1250_1_8);
    reflexivity.
Defined.
End GrowthLaws.

(** ** Leaf geometry *)

Section LeafGeometry.
Import trunk_model.

(** C10, as the specification states it, fails when the difference of
    the two lengths is NaN: the guard does not fire, and the clamp
    turns the NaN into [0]. *)
Lemma calculate_lamina_L_nan_counterexample :
  ¬ spec.lamina_L_claim nan sample.tenth.
Proof.
  intros [_ H]. destruct (H eq_refl) as (Hret & _ & _). discriminate Hret.
Qed.

(** C10, amended.  [calculate_lamina_L] raises exactly when
    [leaf_L - hgz_L <= 0]; when the difference is a number that is not
    [<= 0] it is returned unchanged, is strictly positive, and the
    clamp [max(0, lamina_L)] is the identity on it; when the
    difference is NaN nothing is raised and [0] is returned. *)
Theorem calculate_lamina_L_spec (leaf_L hgz_L : float) :
  let d := fsub leaf_L hgz_L in
  ((∃ e, calculate_lamina_L leaf_L hgz_L = Raise e) ↔ fle d zero = true) ∧
  (is_nan d = false → fle d zero = false →
     calculate_lamina_L leaf_L hgz_L = Ok d ∧ flt zero d = true ∧ py_max zero d = d) ∧
  (is_nan d = true → calculate_lamina_L leaf_L hgz_L = Ok zero).
Proof.
  intros d. unfold calculate_lamina_L. fold d.
  split; [|split].
  - destruct (fle d zero); split; try done; [eauto | intros [e ?]; done].
  - intros Hnan Hle. rewrite Hle.
    pose proof (not_fle_zero_flt d Hnan Hle) as Hpos.
    unfold py_max. by rewrite Hpos.
  - intros Hnan. destruct d; try discriminate Hnan. reflexivity.
Qed.

Lemma calculate_lamina_L_spec_witness :
  (calculate_lamina_L sample.one sample.tenth = Ok (fsub sample.one sample.tenth) ∧
   flt zero (fsub sample.one sample.tenth) = true ∧
   py_max zero (fsub sample.one sample.tenth) = fsub sample.one sample.tenth) ∧
  calculate_lamina_L nan sample.tenth = Ok zero.
Proof.
  split.
  - apply (calculate_lamina_L_spec sample.one sample.tenth); reflexivity.
  - apply (calculate_lamina_L_spec nan sample.tenth); reflexivity.
Defined.
End LeafGeometry.

(** ** Statements *)

Lemma bind_run {A B} (m : M A) (k : A → M B) (s : Simulation) :
  (m ≫= k) s = match m s with
               | (s', Ok a) => k a s'
               | (s', Raise e) => (s', Raise e)
               end.
Proof. reflexivity. Qed.

Lemma exec_bind {A B} (m : M A) (k : A → M B) (s : Simulation) :
  exec (m ≫= k) s = match m s with
                    | (s', Ok a) => exec (k a) s'
                    | (_, Raise _) => None
                    end.
Proof. unfold exec. rewrite bind_run. by destruct (m s) as [s' [a|e]]. Qed.

Lemma Simulation_eq (s1 s2 : Simulation) :
  heap s1 = heap s2 → inputs s1 = inputs s2 → outputs s1 = outputs s2 →
  delta_t s1 = delta_t s2 → s1 = s2.
Proof. destruct s1, s2; simpl; by intros -> -> -> ->. Qed.

Lemma set_table_get_table (n : table_name) (t : tables) :
  set_table n (get_table n t) t = t.
Proof. by destruct n, t. Qed.

(** ** Footprints *)

Section FootprintRules.
Context (I O : tables) (R W : gset loc).

Lemma footprint_ret {A} (a : A) : footprint I O R W (mret a).
Proof. split; [intros s Hs | intros s1 s2 H1 H2 Hag]; simpl; auto. Qed.

Lemma footprint_lift {A} (r : result A) : footprint I O R W (lift r).
Proof. split; [intros s Hs | intros s1 s2 H1 H2 Hag]; simpl; auto. Qed.

Lemma footprint_get_delta_t : footprint I O R W get_delta_t.
Proof.
  split; [intros s Hs | intros s1 s2 H1 H2 Hag]; simpl; auto.
  split; [|done]. f_equal. apply Hag.
Qed.

Lemma footprint_bind {A B} (m : M A) (k : A → M B) :
  footprint I O R W m → (∀ a, footprint I O R W (k a)) → footprint I O R W (m ≫= k).
Proof.
  intros [Hfm Hlm] Hk. split.
  - intros s Hs. rewrite bind_run.
    specialize (Hfm s Hs). destruct (m s) as [s' [a|e]]; simpl in *; [|done].
    destruct Hfm as (Hs' & Hdt & Hh).
    destruct (Hk a) as [Hfk _]. specialize (Hfk s' Hs').
    destruct Hfk as (Hs'' & Hdt' & Hh'). split; [done|]. split; [congruence|].
    intros l Hl. rewrite Hh', Hh; done.
  - intros s1 s2 H1 H2 Hag. rewrite !bind_run.
    pose proof (Hfm s1 H1) as (H1' & _). pose proof (Hfm s2 H2) as (H2' & _).
    specialize (Hlm s1 s2 H1 H2 Hag).
    destruct (m s1) as [s1' [a1|e1]], (m s2) as [s2' [a2|e2]]; simpl in *;
      destruct Hlm as [Hr Hag']; try discriminate Hr;
      [|by injection Hr as ->].
    injection Hr as <-.
    destruct (Hk a1) as [_ Hlk]. by apply Hlk.
Qed.

Lemma footprint_getitem_in {A} (n : table_name) (k : key) (cont : loc → M A) :
  (∀ l, get_table n I !! k = Some l → footprint I O R W (cont l)) →
  footprint I O R W (getitem_in n k ≫= cont).
Proof.
  intros Hcont. split.
  - intros s Hs. rewrite bind_run. unfold getitem_in. rewrite (proj1 Hs).
    destruct (get_table n I !! k) as [l|]; simpl; [|done].
    destruct (Hcont l eq_refl) as [Hf _]. by apply Hf.
  - intros s1 s2 H1 H2 Hag. rewrite !bind_run. unfold getitem_in.
    rewrite (proj1 H1), (proj1 H2).
    destruct (get_table n I !! k) as [l|]; simpl; [|done].
    destruct (Hcont l eq_refl) as [_ Hl]. by apply Hl.
Qed.

Lemma footprint_getitem_out {A} (n : table_name) (k : key) (cont : loc → M A) :
  (∀ l, get_table n O !! k = Some l → footprint I O R W (cont l)) →
  footprint I O R W (getitem_out n k ≫= cont).
Proof.
  intros Hcont. split.
  - intros s Hs. rewrite bind_run. unfold getitem_out. rewrite (proj2 Hs).
    destruct (get_table n O !! k) as [l|]; simpl; [|done].
    destruct (Hcont l eq_refl) as [Hf _]. by apply Hf.
  - intros s1 s2 H1 H2 Hag. rewrite !bind_run. unfold getitem_out.
    rewrite (proj2 H1), (proj2 H2).
    destruct (get_table n O !! k) as [l|]; simpl; [|done].
    destruct (Hcont l eq_refl) as [_ Hl]. by apply Hl.
Qed.

Lemma footprint_setitem_out (n : table_name) (k : key) (l : loc) :
  get_table n O !! k = Some l → footprint I O R W (setitem_out n k l).
Proof.
  intros Hl.
  assert (Hid : ∀ s, at_tables I O s → setitem_out n k l s = (s, Ok tt)).
  { intros s [HI HO]. unfold setitem_out. f_equal.
    rewrite HO, (insert_id _ _ _ Hl), set_table_get_table.
    destruct s; simpl in *. by subst. }
  split.
  - intros s Hs. rewrite (Hid s Hs). simpl. by destruct Hs.
  - intros s1 s2 H1 H2 Hag. by rewrite (Hid s1 H1), (Hid s2 H2).
Qed.

Lemma lookup_total_agree (h1 h2 : store) (l : loc) :
  h1 !! l = h2 !! l → h1 !!! l = h2 !!! l.
Proof. intros H. by rewrite !lookup_total_alt, H. Qed.

Lemma footprint_getfield (l : loc) (f : string) :
  l ∈ R → footprint I O R W (getfield l f).
Proof.
  intros Hl. split.
  - intros s Hs. simpl. auto.
  - intros s1 s2 H1 H2 Hag. unfold getfield. simpl. split; [|done].
    by rewrite (lookup_total_agree _ _ l (proj2 Hag l Hl)).
Qed.

Lemma footprint_setfield (l : loc) (f : string) (v : value) :
  l ∈ W → footprint I O R W (setfield l f v).
Proof.
  intros Hl. split.
  - intros s Hs. simpl. split; [done|]. split; [done|].
    intros l' Hl'. apply lookup_insert_ne. by intros ->.
  - intros s1 s2 H1 H2 [Hdt Hag]. unfold setfield. simpl. split; [done|].
    split; [done|]. intros l' Hl'. simpl.
    destruct (decide (l = l')) as [<-|Hne].
    + by rewrite !lookup_insert_eq, (lookup_total_agree _ _ l (Hag l Hl')).
    + rewrite !lookup_insert_ne by done. by apply Hag.
Qed.

Lemma footprint_iadd (l : loc) (f : string) (x : float) :
  l ∈ R → l ∈ W → footprint I O R W (iadd l f x).
Proof.
  intros. apply footprint_bind; [by apply footprint_getfield|].
  intros v. by apply footprint_setfield.
Qed.

Lemma footprint_isub (l : loc) (f : string) (x : float) :
  l ∈ R → l ∈ W → footprint I O R W (isub l f x).
Proof.
  intros. apply footprint_bind; [by apply footprint_getfield|].
  intros v. by apply footprint_setfield.
Qed.

End FootprintRules.

Lemma elem_of_loc_of (t : table) (k : key) (l : loc) :
  l ∈ loc_of t k ↔ t !! k = Some l.
Proof.
  unfold loc_of. destruct (t !! k) as [l'|].
  - rewrite elem_of_singleton. naive_solver.
  - rewrite elem_of_empty. naive_solver.
Qed.

Ltac solve_loc :=
  unfold hiddenzone_reads, hiddenzone_writes, roots_reads, roots_writes; cbn [fst snd];
  rewrite ?elem_of_union, ?elem_of_singleton, ?elem_of_loc_of; naive_solver.

Ltac footprint_step :=
  first
    [ apply footprint_getitem_in; intros ? ?
    | apply footprint_getitem_out; intros ? ?
    | apply footprint_ret
    | apply footprint_lift
    | apply footprint_get_delta_t
    | apply footprint_getfield
    | apply footprint_iadd
    | apply footprint_isub
    | apply footprint_setitem_out
    | apply footprint_bind; [ | intros ? ] ].

Section BodyFootprints.
Context (model : model_functions) (RespirationModel : RespirationModel_functions).
Context (I O : tables).

Lemma footprint_emerged_organ_growth (R W : gset loc) (hiddenzone_inputs : loc)
    (organ_id : key) (SW metric : string) :
  hiddenzone_inputs ∈ R →
  loc_of (t_organs I) organ_id ⊆ R →
  loc_of (t_organs O) organ_id ⊆ R →
  loc_of (t_organs O) organ_id ⊆ W →
  footprint I O R W (emerged_organ_growth model hiddenzone_inputs organ_id SW metric).
Proof.
  intros Hh HI HR HW. unfold emerged_organ_growth.
  apply footprint_getitem_in. intros li Hli.
  apply footprint_getitem_out. intros lo Hlo.
  assert (li ∈ R) by (apply HI; by apply elem_of_loc_of).
  assert (lo ∈ R) by (apply HR; by apply elem_of_loc_of).
  assert (lo ∈ W) by (apply HW; by apply elem_of_loc_of).
  repeat footprint_step; done.
Qed.

Lemma footprint_hiddenzone_body (item : key * loc) :
  footprint I O (hiddenzone_reads I O item) (hiddenzone_writes O item.1)
    (hiddenzone_body model RespirationModel item).
Proof.
  destruct item as [hiddenzone_id hiddenzone_inputs].
  unfold hiddenzone_body.
  apply footprint_getitem_out. intros lo Hlo.
  assert (lo ∈ hiddenzone_reads I O (hiddenzone_id, hiddenzone_inputs)) by solve_loc.
  assert (lo ∈ hiddenzone_writes O hiddenzone_id) by solve_loc.
  assert (hiddenzone_inputs ∈ hiddenzone_reads I O (hiddenzone_id, hiddenzone_inputs))
    by solve_loc.
  do 4 (apply footprint_bind; [repeat footprint_step; done | intros ?]).
  apply footprint_bind.
  - destruct (truthy _); [|apply footprint_ret].
    apply footprint_getitem_in. intros lb Hlb.
    apply footprint_bind; [apply footprint_getfield; solve_loc | intros g].
    destruct (truthy g).
    + apply footprint_bind; [|intros [[? ?] ?]; apply footprint_ret].
      apply footprint_emerged_organ_growth; [done | | |];
        intros l Hl; apply elem_of_loc_of in Hl; solve_loc.
    + apply footprint_bind; [|intros [[? ?] ?]; apply footprint_ret].
      apply footprint_emerged_organ_growth; [done | | |];
        intros l Hl; apply elem_of_loc_of in Hl; solve_loc.
  - intros [[[? ?] ?] ?]. repeat footprint_step; done.
Qed.

Lemma footprint_roots_body (item : key * loc) :
  footprint I O (roots_reads O item) (roots_writes O item.1)
    (roots_body model RespirationModel item).
Proof.
  destruct item as [root_id root_inputs].
  unfold roots_body.
  apply footprint_getitem_out. intros lo Hlo.
  assert (lo ∈ roots_reads O (root_id, root_inputs)) by solve_loc.
  assert (lo ∈ roots_writes O root_id) by solve_loc.
  assert (root_inputs ∈ roots_reads O (root_id, root_inputs)) by solve_loc.
  do 4 (apply footprint_bind; [repeat footprint_step; done | intros ?]).
  apply footprint_bind; [apply footprint_lift|].
  intros [[[? ?] ?] ?]. repeat footprint_step; done.
Qed.

End BodyFootprints.

(** ** Statements with disjoint footprints commute *)

Lemma exec_Some_inv {A} (m : M A) (s s' : Simulation) :
  exec m s = Some s' → ∃ a, m s = (s', Ok a).
Proof. unfold exec. destruct (m s) as [s1 [a|e]]; [|done]. intros [= ->]. eauto. Qed.

Lemma exec_seq {A} (m : M A) (k : M unit) (s : Simulation) :
  exec (m ;; k) s = exec m s ≫= exec k.
Proof. rewrite exec_bind. unfold exec. by destruct (m s) as [s' [a|e]]. Qed.

Lemma exec_seq_assoc (m1 m2 k : M unit) (s : Simulation) :
  exec (m1 ;; m2 ;; k) s = exec (m1 ;; m2) s ≫= exec k.
Proof.
  rewrite !exec_seq. destruct (exec m1 s) as [s1|]; simpl; [|done].
  by rewrite exec_seq.
Qed.

Lemma exec_commute (I O : tables) (R1 W1 R2 W2 : gset loc) (m1 m2 : M unit)
    (s : Simulation) :
  footprint I O R1 W1 m1 → footprint I O R2 W2 m2 →
  W1 ⊆ R1 → W2 ⊆ R2 → W1 ## R2 → W2 ## R1 →
  at_tables I O s →
  exec (m1 ;; m2) s = exec (m2 ;; m1) s.
Proof.
  intros [Hf1 Hl1] [Hf2 Hl2] HW1 HW2 H12 H21 Hs.
  pose proof (Hf1 s Hs) as (Hs1 & Hdt1 & Hh1).
  pose proof (Hf2 s Hs) as (Hs2 & Hdt2 & Hh2).
  assert (Hag2 : agree R2 s (m1 s).1).
  { split; [done|]. intros l Hl. symmetry. apply Hh1. set_solver. }
  assert (Hag1 : agree R1 s (m2 s).1).
  { split; [done|]. intros l Hl. symmetry. apply Hh2. set_solver. }
  pose proof (Hl2 _ _ Hs Hs1 Hag2) as [Hr2 Hag2'].
  pose proof (Hl1 _ _ Hs Hs2 Hag1) as [Hr1 Hag1'].
  pose proof (Hf2 _ Hs1) as (Hs12 & Hdt12 & Hh12).
  pose proof (Hf1 _ Hs2) as (Hs21 & Hdt21 & Hh21).
  rewrite !exec_bind. unfold exec.
  destruct (m1 s) as [s1 r1], (m2 s) as [s2 r2]; simpl in *.
  destruct (m2 s1) as [s12 r2'], (m1 s2) as [s21 r1']; simpl in *. subst r2' r1'.
  destruct r1 as [[]|e1], r2 as [[]|e2]; try done.
  f_equal. apply Simulation_eq.
  - apply map_eq. intros l.
    destruct (decide (l ∈ W1)) as [Hl1'|Hn1].
    + rewrite Hh12 by set_solver. apply Hag1'. set_solver.
    + rewrite Hh21 by done.
      destruct (decide (l ∈ W2)) as [Hl2'|Hn2].
      * symmetry. apply Hag2'. set_solver.
      * by rewrite Hh12, Hh1, Hh2.
  - destruct Hs12, Hs21. congruence.
  - destruct Hs12, Hs21. congruence.
  - congruence.
Qed.

(** A loop whose bodies have pairwise disjoint footprints ends in the
    same state, or raises, in whatever order it visits its items. *)
Lemma exec_for_each_perm {A} (I O : tables) (Rd Wr : A → gset loc) (body : A → M unit)
    (items1 items2 : list A) :
  (∀ x, footprint I O (Rd x) (Wr x) (body x)) →
  (∀ x, Wr x ⊆ Rd x) →
  items1 ≡ₚ items2 →
  NoDup items1 →
  (∀ x y, x ∈ items1 → y ∈ items1 → x ≠ y → Wr x ## Rd y) →
  ∀ s, at_tables I O s →
    exec (for_each items1 body) s = exec (for_each items2 body) s.
Proof.
  intros Hfp Hsub Hperm.
  induction Hperm as [|x l l' Hperm IH|x y l|l l' l'' Hperm1 IH1 Hperm2 IH2];
    intros Hnd Hdisj s Hs.
  - done.
  - simpl. rewrite !exec_seq.
    apply NoDup_cons in Hnd as [Hx Hnd].
    destruct (Hfp x) as [Hfx _]. pose proof (Hfx s Hs) as (Hs' & _).
    destruct (exec (body x) s) as [s'|] eqn:E; simpl; [|done].
    apply exec_Some_inv in E as [a E]. rewrite E in Hs'.
    apply IH; [done| |done].
    intros y z Hy Hz. apply Hdisj; by right.
  - simpl. rewrite !exec_seq_assoc. f_equal.
    apply NoDup_cons in Hnd as [Hy Hnd]. apply NoDup_cons in Hnd as [Hx Hnd].
    assert (y ≠ x) by (intros ->; apply Hy; by left).
    apply (exec_commute I O (Rd y) (Wr y) (Rd x) (Wr x)); auto.
    + apply Hdisj; [by left | by right; left | done].
    + apply Hdisj; [by right; left | by left | done].
  - rewrite IH1 by done. apply IH2; [by rewrite <- Hperm1| |done].
    intros y z Hy Hz. apply Hdisj; by rewrite Hperm1.
Qed.

(** ** The deep copy *)

Lemma deepcopy_items_spec (items : list (key * loc)) (s : Simulation) :
  NoDup items.*1 →
  (∀ k l, (k, l) ∈ items → is_Some (heap s !! l)) →
  ∃ s' t,
    deepcopy_items items s = (s', Ok t) ∧
    inputs s' = inputs s ∧ outputs s' = outputs s ∧ delta_t s' = delta_t s ∧
    (∀ l, is_Some (heap s !! l) → heap s' !! l = heap s !! l) ∧
    (∀ k, is_Some (t !! k) ↔ k ∈ items.*1) ∧
    (∀ k l', t !! k = Some l' →
       heap s !! l' = None ∧
       ∃ l, (k, l) ∈ items ∧ heap s' !! l' = Some (heap s !!! l)) ∧
    (∀ k k' l', t !! k = Some l' → t !! k' = Some l' → k = k').
Proof.
  revert s. induction items as [|[k l] items IH]; intros s Hnd Halloc.
  - exists s, ∅. split; [done|]. do 4 (split; [done|]). split; [|split].
    + intros k. rewrite lookup_empty. split; [by intros [? ?] | by intros ?%elem_of_nil].
    + intros k l'. by rewrite lookup_empty.
    + intros k k' l'. by rewrite lookup_empty.
  - simpl in Hnd. apply NoDup_cons in Hnd as [Hk Hnd].
    set (l1 := fresh (dom (heap s))).
    assert (Hl1 : heap s !! l1 = None).
    { apply not_elem_of_dom. apply is_fresh. }
    set (s1 := set_heap (<[l1 := heap s !!! l]> (heap s)) s).
    assert (Hold1 : ∀ l0, is_Some (heap s !! l0) → heap s1 !! l0 = heap s !! l0).
    { intros l0 [r Hr]. simpl. apply lookup_insert_ne. intros <-. congruence. }
    destruct (IH s1) as (s' & t & Hrun & HI & HO & Hdt & Hold & Hkeys & Hnew & Hinj).
    { done. }
    { intros k0 l0 H0. rewrite Hold1; apply (Halloc k0 l0); by right. }
    exists s', (<[k := l1]> t).
    assert (Hrun' : deepcopy_items ((k, l) :: items) s = (s', Ok (<[k := l1]> t))).
    { simpl. rewrite bind_run. unfold deepcopy_record. fold l1. fold s1.
      rewrite bind_run, Hrun. reflexivity. }
    split; [done|]. split; [done|]. split; [done|]. split; [done|].
    split; [|split; [|split]].
    + intros l0 Hl0. rewrite Hold; rewrite Hold1; done.
    + intros k0. simpl. rewrite elem_of_cons, <- Hkeys.
      destruct (decide (k = k0)) as [<-|Hne].
      * rewrite lookup_insert_eq. split; [by left | by eexists].
      * rewrite lookup_insert_ne by done. split; [by right | by intros [?|?]].
    + intros k0 l'. destruct (decide (k = k0)) as [<-|Hne].
      * rewrite lookup_insert_eq. intros [= <-]. split; [done|].
        exists l. split; [by left|].
        rewrite Hold; simpl; rewrite lookup_insert_eq; done.
      * rewrite lookup_insert_ne by done. intros Ht.
        destruct (Hnew k0 l' Ht) as (Hfresh & l0 & Hl0 & Hcopy).
        split.
        { destruct (heap s !! l') eqn:E; [|done].
          rewrite Hold1 in Hfresh by (by rewrite E). congruence. }
        exists l0. split; [by right|]. rewrite Hcopy. f_equal.
        apply lookup_total_agree, Hold1, (Halloc k0 l0). by right.
    + intros k0 k0' l'.
      destruct (decide (k = k0)) as [<-|Hne], (decide (k = k0')) as [<-|Hne'];
        rewrite ?lookup_insert_eq, ?lookup_insert_ne by done; try done.
      * intros [= <-] Ht. destruct (Hnew _ _ Ht) as [Hfresh _].
        simpl in Hfresh. by rewrite lookup_insert_eq in Hfresh.
      * intros Ht [= <-]. destruct (Hnew _ _ Ht) as [Hfresh _].
        simpl in Hfresh. by rewrite lookup_insert_eq in Hfresh.
      * apply Hinj.
Qed.

Lemma deepcopy_spec (t0 : table) (s : Simulation) :
  (∀ k l, t0 !! k = Some l → is_Some (heap s !! l)) →
  ∃ s' t,
    deepcopy t0 s = (s', Ok t) ∧
    inputs s' = inputs s ∧ outputs s' = outputs s ∧ delta_t s' = delta_t s ∧
    (∀ l, is_Some (heap s !! l) → heap s' !! l = heap s !! l) ∧
    dom t = dom t0 ∧
    (∀ k l', t !! k = Some l' →
       heap s !! l' = None ∧
       ∃ l, t0 !! k = Some l ∧ heap s' !! l' = Some (heap s !!! l)) ∧
    (∀ k k' l', t !! k = Some l' → t !! k' = Some l' → k = k').
Proof.
  intros Halloc. unfold deepcopy.
  destruct (deepcopy_items_spec (map_to_list t0) s)
    as (s' & t & Hrun & HI & HO & Hdt & Hold & Hkeys & Hnew & Hinj).
  { apply NoDup_fst_map_to_list. }
  { intros k l Hkl. apply (Halloc k l). by apply elem_of_map_to_list. }
  exists s', t. repeat (split; [done|]). split; [|split; [|done]].
  - apply set_eq. intros k. rewrite !elem_of_dom, Hkeys.
    rewrite list_elem_of_fmap. split.
    + intros [[k' l] [-> Hkl]]. apply elem_of_map_to_list in Hkl. by eexists.
    + intros [l Hl]. exists (k, l). split; [done|]. by apply elem_of_map_to_list.
  - intros k l' Ht. destruct (Hnew k l' Ht) as (Hfresh & l & Hl & Hcopy).
    split; [done|]. exists l. split; [|done]. by apply elem_of_map_to_list.
Qed.

Section UpdateOutputs.
Context (s : Simulation) (Halloc : allocated s).

Lemma update_outputs_spec :
  ∃ s1, update_outputs s = (s1, Ok tt) ∧ copied s s1.
Proof.
  unfold update_outputs. rewrite bind_run. simpl.
  destruct (deepcopy_spec (t_hiddenzone (inputs s)) s)
    as (sa & ta & Hra & HIa & HOa & Hdta & Holda & Hdoma & Hnewa & Hinja).
  { intros k l. apply (Halloc hiddenzone). }
  assert (Hsa : ∀ l, is_Some (heap s !! l) → is_Some (heap sa !! l)).
  { intros l Hl. by rewrite Holda. }
  destruct (deepcopy_spec (t_organs (inputs s)) sa)
    as (sb & tb & Hrb & HIb & HOb & Hdtb & Holdb & Hdomb & Hnewb & Hinjb).
  { intros k l Hl. apply Hsa, (Halloc organs _ _ Hl). }
  assert (Hsb : ∀ l, is_Some (heap sa !! l) → is_Some (heap sb !! l)).
  { intros l Hl. by rewrite Holdb. }
  destruct (deepcopy_spec (t_roots (inputs s)) sb)
    as (sc & tc & Hrc & HIc & HOc & Hdtc & Holdc & Hdomc & Hnewc & Hinjc).
  { intros k l Hl. apply Hsb, Hsa, (Halloc roots _ _ Hl). }
  rewrite bind_run, Hra, bind_run, Hrb, bind_run, Hrc. simpl.
  eexists. split; [reflexivity|].
  assert (Hin_a : ∀ k l, ta !! k = Some l → is_Some (heap sa !! l)).
  { intros k l Hl. destruct (Hnewa _ _ Hl) as (_ & l0 & _ & ->). by eexists. }
  assert (Hin_b : ∀ k l, tb !! k = Some l → is_Some (heap sb !! l)).
  { intros k l Hl. destruct (Hnewb _ _ Hl) as (_ & l0 & _ & ->). by eexists. }
  assert (Hnone : ∀ (h : store) l, ¬ is_Some (h !! l) → h !! l = None).
  { intros h l. destruct (h !! l); [intros []; by eexists | done]. }
  split; [simpl; congruence|]. split; [simpl; congruence|]. split; [|split].
  - intros l Hl. simpl. rewrite Holdc, Holdb, Holda; auto.
  - split; [|split].
    + intros []; simpl; done.
    + intros n k l Hl. apply not_elem_of_dom.
      destruct n; simpl in Hl.
      * by destruct (Hnewa _ _ Hl).
      * destruct (Hnewb _ _ Hl) as [Hf _]. apply Hnone. intros H%Hsa.
        rewrite Hf in H. by destruct H.
      * destruct (Hnewc _ _ Hl) as [Hf _]. apply Hnone. intros H%Hsa%Hsb.
        rewrite Hf in H. by destruct H.
    + intros n n' k k' l Hl Hl'.
      destruct n, n'; simpl in Hl, Hl';
        try (split; [done|]; eauto; fail); exfalso.
      * destruct (Hnewb _ _ Hl') as [Hf _]. apply Hin_a in Hl.
        rewrite Hf in Hl. by destruct Hl.
      * destruct (Hnewc _ _ Hl') as [Hf _]. apply Hin_a, Hsb in Hl.
        rewrite Hf in Hl. by destruct Hl.
      * destruct (Hnewb _ _ Hl) as [Hf _]. apply Hin_a in Hl'.
        rewrite Hf in Hl'. by destruct Hl'.
      * destruct (Hnewc _ _ Hl') as [Hf _]. apply Hin_b in Hl.
        rewrite Hf in Hl. by destruct Hl.
      * destruct (Hnewc _ _ Hl) as [Hf _]. apply Hin_a, Hsb in Hl'.
        rewrite Hf in Hl'. by destruct Hl'.
      * destruct (Hnewc _ _ Hl) as [Hf _]. apply Hin_b in Hl'.
        rewrite Hf in Hl'. by destruct Hl'.
  - intros n k l' Hl'. destruct n; simpl in Hl' |- *.
    + destruct (Hnewa _ _ Hl') as (_ & l & Hl & Hc). exists l. split; [done|].
      rewrite Holdc, Holdb; [done|by rewrite Hc|].
      apply Hsb. by rewrite Hc.
    + destruct (Hnewb _ _ Hl') as (_ & l & Hl & Hc). exists l. split; [done|].
      rewrite Holdc by (by rewrite Hc). rewrite Hc. f_equal.
      apply lookup_total_agree, Holda, (Halloc organs _ _ Hl).
    + destruct (Hnewc _ _ Hl') as (_ & l & Hl & Hc). exists l. split; [done|].
      rewrite Hc. f_equal.
      pose proof (Halloc roots _ _ Hl) as Ha.
      apply lookup_total_agree. rewrite Holdb by auto. by apply Holda.
Qed.

End UpdateOutputs.

(** ** Loops *)

Lemma frame_mono (I O : tables) (W W' : gset loc) {A} (m : M A) :
  W ⊆ W' → frame I O W m → frame I O W' m.
Proof.
  intros Hsub Hf s Hs. pose proof (Hf s Hs) as (Hs' & Hdt & Hh).
  split; [done|]. split; [done|]. intros l Hl. apply Hh. set_solver.
Qed.

Lemma frame_for_each {A} (I O : tables) (W : gset loc) (body : A → M unit)
    (items : list A) :
  (∀ x, frame I O W (body x)) → frame I O W (for_each items body).
Proof.
  intros Hbody. induction items as [|x items IH]; intros s Hs; simpl.
  - done.
  - rewrite bind_run. destruct (Hbody x s Hs) as (Hs' & Hdt & Hh).
    destruct (body x s) as [s' [[]|e]]; simpl in *; [|done].
    destruct (IH s' Hs') as (Hs'' & Hdt' & Hh').
    split; [done|]. split; [congruence|]. intros l Hl. by rewrite Hh', Hh.
Qed.

Lemma elem_of_all_locs (t : tables) (l : loc) :
  l ∈ all_locs t ↔ ∃ n k, get_table n t !! k = Some l.
Proof.
  unfold all_locs. rewrite !elem_of_union, !elem_of_map_img. split.
  - intros [[[k H]|[k H]]|[k H]];
      [exists hiddenzone | exists organs | exists roots]; by exists k.
  - intros ([] & k & H); simpl in H; eauto.
Qed.

Lemma hiddenzone_writes_all_locs (O : tables) (k : key) :
  hiddenzone_writes O k ⊆ all_locs O.
Proof.
  intros l. unfold hiddenzone_writes.
  rewrite !elem_of_union, !elem_of_loc_of, elem_of_all_locs.
  intros [[H|H]|H]; [by exists hiddenzone, k | by exists organs, (k ++ [AStr "blade"])
                     | by exists organs, (k ++ [AStr "sheath"])].
Qed.

Lemma roots_writes_all_locs (O : tables) (k : key) :
  roots_writes O k ⊆ all_locs O.
Proof.
  intros l. unfold roots_writes. rewrite elem_of_loc_of, elem_of_all_locs.
  intros H. by exists roots, k.
Qed.

Lemma produced_exec (m : M unit) (s : Simulation) :
  produced (m s) = outputs_snapshot <$> exec m s.
Proof. unfold produced, exec. by destruct (m s) as [s' [[]|e]]. Qed.

(** ** Well-formed states *)

Lemma elem_of_locs (t : tables) (n : table_name) (k : key) (l : loc) :
  get_table n t !! k = Some l → l ∈ locs t.
Proof.
  intros H. apply elem_of_map_to_list in H.
  assert (l ∈ (map_to_list (get_table n t)).*2).
  { apply list_elem_of_fmap. by exists (k, l). }
  unfold locs. rewrite !elem_of_app. destruct n; simpl in *; auto.
Qed.

Lemma well_formed_allocated (s : Simulation) : well_formed s → allocated s.
Proof.
  intros [_ Hall] n k l Hl.
  rewrite Forall_forall in Hall. by apply Hall, (elem_of_locs _ n k).
Qed.

(** ** Separation of the footprints after the deep copy *)

Section Separation.
Context (s s1 : Simulation) (Halloc : allocated s) (Hcopy : copied s s1).

Let I := inputs s.
Let O := outputs s1.

Lemma copied_at_tables : at_tables I O s1.
Proof. destruct Hcopy as (HI & _). by split. Qed.

Lemma output_not_input (n n' : table_name) (k k' : key) (l : loc) :
  get_table n O !! k = Some l → get_table n' I !! k' = Some l → False.
Proof.
  intros Ho Hi. destruct Hcopy as (_ & _ & _ & (_ & Hfresh & _) & _).
  apply (Hfresh _ _ _ Ho). apply elem_of_dom. by apply (Halloc n' k').
Qed.

Lemma output_inj (n n' : table_name) (k k' : key) (l : loc) :
  get_table n O !! k = Some l → get_table n' O !! k' = Some l → n = n' ∧ k = k'.
Proof. destruct Hcopy as (_ & _ & _ & (_ & _ & Hinj) & _). apply Hinj. Qed.

Lemma all_locs_fresh (l : loc) : l ∈ all_locs O → heap s !! l = None.
Proof.
  rewrite elem_of_all_locs. intros (n & k & Hl).
  destruct Hcopy as (_ & _ & _ & (_ & Hfresh & _) & _).
  apply not_elem_of_dom. by apply (Hfresh n k).
Qed.

Lemma hiddenzone_footprints_disjoint (x y : key * loc) :
  x ∈ map_to_list (t_hiddenzone I) → y ∈ map_to_list (t_hiddenzone I) → x ≠ y →
  hiddenzone_writes O x.1 ## hiddenzone_reads I O y.
Proof.
  destruct x as [k1 l1], y as [k2 l2]. intros Hx%elem_of_map_to_list Hy%elem_of_map_to_list Hne.
  assert (Hk : k1 ≠ k2) by (intros ->; congruence).
  change (get_table hiddenzone I !! k1 = Some l1) in Hx.
  change (get_table hiddenzone I !! k2 = Some l2) in Hy.
  apply elem_of_disjoint. intros l. unfold hiddenzone_reads, hiddenzone_writes.
  cbn [fst snd].
  rewrite !elem_of_union, elem_of_singleton, !elem_of_loc_of.
  intros [[Hw|Hw]|Hw] [[[Hr|Hr]|Hr]|[[Hr|Hr]|Hr]]; subst;
    try (by eapply (output_not_input _ hiddenzone _ _ _ Hw));
    try (by eapply (output_not_input _ organs _ _ _ Hw));
    destruct (output_inj _ _ _ _ _ Hw Hr) as [Hn Hkk]; try discriminate Hn;
    try (apply app_inj_tail in Hkk as [? ?]); done.
Qed.

Lemma roots_footprints_disjoint (x y : key * loc) :
  x ∈ map_to_list (t_roots I) → y ∈ map_to_list (t_roots I) → x ≠ y →
  roots_writes O x.1 ## roots_reads O y.
Proof.
  destruct x as [k1 l1], y as [k2 l2]. intros Hx%elem_of_map_to_list Hy%elem_of_map_to_list Hne.
  assert (Hk : k1 ≠ k2) by (intros ->; congruence).
  change (get_table roots I !! k1 = Some l1) in Hx.
  change (get_table roots I !! k2 = Some l2) in Hy.
  apply elem_of_disjoint. intros l. unfold roots_reads, roots_writes. cbn [fst snd].
  rewrite !elem_of_union, elem_of_singleton, !elem_of_loc_of.
  intros Hw [Hr|Hr]; subst.
  - by eapply (output_not_input _ roots _ _ _ Hw).
  - by destruct (output_inj _ _ _ _ _ Hw Hr) as [_ ?].
Qed.

End Separation.

Lemma frame_bind (I O : tables) (W : gset loc) {A B} (m : M A) (k : A → M B) :
  frame I O W m → (∀ a, frame I O W (k a)) → frame I O W (m ≫= k).
Proof.
  intros Hm Hk s Hs. rewrite bind_run.
  pose proof (Hm s Hs) as (Hs' & Hdt & Hh).
  destruct (m s) as [s' [a|e]]; simpl in *; [|done].
  pose proof (Hk a s' Hs') as (Hs'' & Hdt' & Hh').
  split; [done|]. split; [congruence|]. intros l Hl. by rewrite Hh', Hh.
Qed.

Lemma contents_ext (h h' : store) (t : table) :
  (∀ k l, t !! k = Some l → h' !! l = h !! l) → contents h' t = contents h t.
Proof.
  intros H. unfold contents. apply map_fmap_ext. intros k l Hl.
  apply lookup_total_agree. by apply (H k).
Qed.

(** ** The step *)

Section Step.
Context (model : model_functions) (RespirationModel : RespirationModel_functions).

Lemma frame_loops (I O : tables) (hiddenzone_items roots_items : list (key * loc)) :
  frame I O (all_locs O)
    (for_each hiddenzone_items (hiddenzone_body model RespirationModel) ;;
     for_each roots_items (roots_body model RespirationModel)).
Proof.
  apply frame_bind; [|intros _]; apply frame_for_each; intros x.
  - apply (frame_mono _ _ (hiddenzone_writes O x.1)); [apply hiddenzone_writes_all_locs|].
    apply footprint_hiddenzone_body.
  - apply (frame_mono _ _ (roots_writes O x.1)); [apply roots_writes_all_locs|].
    apply footprint_roots_body.
Qed.

Lemma run_after_copy (hiddenzone_items roots_items : list (key * loc)) (s s1 : Simulation) :
  update_outputs s = (s1, Ok tt) →
  run model RespirationModel hiddenzone_items roots_items s
  = (for_each hiddenzone_items (hiddenzone_body model RespirationModel) ;;
     for_each roots_items (roots_body model RespirationModel)) s1.
Proof. intros H. unfold run. by rewrite bind_run, H. Qed.

(** C1. Whatever the orders in which the two loops visit the hidden
    zones and the roots, a step that completes in one order completes
    in the other with the same output snapshot (every attribute of every
    hidden zone, organ and root is the same float), and a step that
    raises in one order raises in the other. *)
Theorem run_order_independent (s : Simulation)
    (hiddenzone_items1 hiddenzone_items2 roots_items1 roots_items2 : list (key * loc)) :
  well_formed s →
  hiddenzone_items1 ≡ₚ map_to_list (t_hiddenzone (inputs s)) →
  hiddenzone_items2 ≡ₚ map_to_list (t_hiddenzone (inputs s)) →
  roots_items1 ≡ₚ map_to_list (t_roots (inputs s)) →
  roots_items2 ≡ₚ map_to_list (t_roots (inputs s)) →
  produced (run model RespirationModel hiddenzone_items1 roots_items1 s)
  = produced (run model RespirationModel hiddenzone_items2 roots_items2 s).
Proof.
  intros Hwf Hh1 Hh2 Hr1 Hr2.
  pose proof (well_formed_allocated s Hwf) as Halloc.
  destruct (update_outputs_spec s Halloc) as (s1 & Hup & Hcopy).
  rewrite !(run_after_copy _ _ s s1 Hup), !produced_exec, !exec_seq. f_equal.
  pose proof (copied_at_tables s s1 Hcopy) as Hs1.
  set (I := inputs s) in *. set (O := outputs s1) in *.
  assert (Hhz : exec (for_each hiddenzone_items1 (hiddenzone_body model RespirationModel)) s1
                = exec (for_each hiddenzone_items2 (hiddenzone_body model RespirationModel)) s1).
  { apply (exec_for_each_perm I O (hiddenzone_reads I O) (λ x, hiddenzone_writes O x.1)).
    - intros x. apply footprint_hiddenzone_body.
    - intros x. unfold hiddenzone_reads. set_solver.
    - by rewrite Hh1, Hh2.
    - rewrite Hh1. apply NoDup_map_to_list.
    - intros x y Hx Hy. rewrite Hh1 in Hx, Hy.
      by apply (hiddenzone_footprints_disjoint s s1 Halloc Hcopy).
    - done. }
  rewrite Hhz.
  destruct (exec (for_each hiddenzone_items2 _) s1) as [s2|] eqn:E; simpl; [|done].
  apply exec_Some_inv in E as [[] E].
  assert (Hs2 : at_tables I O s2).
  { pose proof (frame_for_each I O (all_locs O) (hiddenzone_body model RespirationModel)
                  hiddenzone_items2) as Hf.
    destruct (Hf) with (s := s1) as (Hs2 & _); [|done|by rewrite E in Hs2].
    intros x. apply (frame_mono _ _ (hiddenzone_writes O x.1));
      [apply hiddenzone_writes_all_locs | apply footprint_hiddenzone_body]. }
  apply (exec_for_each_perm I O (roots_reads O) (λ x, roots_writes O x.1)).
  - intros x. apply footprint_roots_body.
  - intros x. unfold roots_reads. set_solver.
  - by rewrite Hr1, Hr2.
  - rewrite Hr1. apply NoDup_map_to_list.
  - intros x y Hx Hy. rewrite Hr1 in Hx, Hy.
    by apply (roots_footprints_disjoint s s1 Halloc Hcopy).
  - done.
Qed.

(** C2. A step leaves the inputs as they were: [inputs] still refers
    to the same tables, every dictionary that existed before the step
    holds the same items after it (whether the step returns or raises,
    and for any items iterated), hence the input snapshot is unchanged;
    and no dictionary of the output tables is a dictionary that existed
    before the step, in particular none is a dictionary of the inputs. *)
Theorem run_preserves_inputs (s : Simulation)
    (hiddenzone_items roots_items : list (key * loc)) :
  well_formed s →
  let s' := (run model RespirationModel hiddenzone_items roots_items s).1 in
  inputs s' = inputs s ∧
  (∀ l, is_Some (heap s !! l) → heap s' !! l = heap s !! l) ∧
  inputs_snapshot s' = inputs_snapshot s ∧
  (∀ n k l, get_table n (outputs s') !! k = Some l →
     heap s !! l = None ∧ ∀ n' k', get_table n' (inputs s) !! k' ≠ Some l).
Proof.
  intros Hwf s'.
  pose proof (well_formed_allocated s Hwf) as Halloc.
  destruct (update_outputs_spec s Halloc) as (s1 & Hup & Hcopy).
  unfold s'. rewrite (run_after_copy _ _ s s1 Hup).
  pose proof (frame_loops (inputs s) (outputs s1) hiddenzone_items roots_items s1
                (copied_at_tables s s1 Hcopy)) as ([HI HO] & _ & Hh).
  match goal with |- context [(?m s1).1] => set (s2 := (m s1).1) in * end.
  clearbody s2.
  assert (Hold : ∀ l, is_Some (heap s !! l) → heap s2 !! l = heap s !! l).
  { intros l Hl. rewrite Hh.
    - destruct Hcopy as (_ & _ & Hold & _). by apply Hold.
    - intros Hin%(all_locs_fresh s s1 Hcopy). rewrite Hin in Hl. by destruct Hl. }
  assert (Hfresh : ∀ n k l, get_table n (outputs s2) !! k = Some l → heap s !! l = None).
  { intros n k l Hl. rewrite HO in Hl. apply (all_locs_fresh s s1 Hcopy).
    apply elem_of_all_locs. eauto. }
  split; [done|]. split; [done|]. split.
  - unfold inputs_snapshot, snapshot_of. rewrite HI.
    f_equal; apply contents_ext; intros k l Hl; apply Hold.
    + apply (Halloc hiddenzone k l Hl).
    + apply (Halloc organs k l Hl).
    + apply (Halloc roots k l Hl).
  - intros n k l Hl. split; [by apply (Hfresh n k)|].
    intros n' k' Hl'. apply Halloc in Hl'. rewrite (Hfresh n k l Hl) in Hl'. by destruct Hl'.
Qed.

End Step.

(** ** Outcomes of the primitive statements *)

Section Outcomes.
Context {A : Type} (Qok : A → Simulation → Prop) (Qex : exn → Simulation → Prop).

Lemma wp_intro (m : M A) (s s' : Simulation) (r : result A) :
  m s = (s', r) → wp m Qok Qex s →
  match r with
  | Ok a => Qok a s'
  | Raise e => Qex e s'
  end.
Proof. unfold wp. by intros ->. Qed.

Lemma wp_bind {B} (m : M B) (k : B → M A) (s : Simulation) :
  wp m (λ b s', wp (k b) Qok Qex s') Qex s → wp (m ≫= k) Qok Qex s.
Proof. unfold wp. rewrite bind_run. by destruct (m s) as [s' [b|e]]. Qed.

Lemma wp_ret (a : A) (s : Simulation) : Qok a s → wp (mret a) Qok Qex s.
Proof. done. Qed.

Lemma wp_lift (r : result A) (s : Simulation) :
  (∀ a, r = Ok a → Qok a s) → (∀ e, r = Raise e → Qex e s) → wp (lift r) Qok Qex s.
Proof. unfold wp, lift. destruct r; auto. Qed.

End Outcomes.

Section PrimitiveOutcomes.
Context (Qex : exn → Simulation → Prop).

Lemma wp_getitem_in (Qok : loc → Simulation → Prop) (n : table_name) (k : key)
    (s : Simulation) :
  (∀ l, get_table n (inputs s) !! k = Some l → Qok l s) →
  (get_table n (inputs s) !! k = None → Qex (KeyError (OTuple k)) s) →
  wp (getitem_in n k) Qok Qex s.
Proof. unfold wp, getitem_in. destruct (_ !! k); auto. Qed.

Lemma wp_getitem_out (Qok : loc → Simulation → Prop) (n : table_name) (k : key)
    (s : Simulation) :
  (∀ l, get_table n (outputs s) !! k = Some l → Qok l s) →
  (get_table n (outputs s) !! k = None → Qex (KeyError (OTuple k)) s) →
  wp (getitem_out n k) Qok Qex s.
Proof. unfold wp, getitem_out. destruct (_ !! k); auto. Qed.

Lemma wp_getfield (Qok : value → Simulation → Prop) (l : loc) (f : string)
    (s : Simulation) :
  (∀ v, (heap s !!! l) !! f = Some v → Qok v s) →
  ((heap s !!! l) !! f = None → Qex (KeyError (OStr f)) s) →
  wp (getfield l f) Qok Qex s.
Proof. unfold wp, getfield. destruct (_ !! f); auto. Qed.

Lemma wp_setfield (Qok : unit → Simulation → Prop) (l : loc) (f : string) (v : value)
    (s : Simulation) :
  Qok tt (set_heap (<[l := <[f := v]> (heap s !!! l)]> (heap s)) s) →
  wp (setfield l f v) Qok Qex s.
Proof. done. Qed.

Lemma wp_setitem_out (Qok : unit → Simulation → Prop) (n : table_name) (k : key) (l : loc)
    (s : Simulation) :
  get_table n (outputs s) !! k = Some l →
  Qok tt s → wp (setitem_out n k l) Qok Qex s.
Proof.
  intros Hl HQ. unfold wp, setitem_out.
  rewrite (insert_id _ _ _ Hl), set_table_get_table. by destruct s.
Qed.

Lemma wp_get_delta_t (Qok : float → Simulation → Prop) (s : Simulation) :
  Qok (delta_t s) s → wp get_delta_t Qok Qex s.
Proof. done. Qed.

Lemma wp_iadd (Qok : unit → Simulation → Prop) (l : loc) (f : string) (x : float)
    (s : Simulation) :
  (∀ v, (heap s !!! l) !! f = Some v →
     Qok tt (set_heap (<[l := <[f := VFloat (fadd (to_float v) x)]> (heap s !!! l)]> (heap s)) s)) →
  ((heap s !!! l) !! f = None → Qex (KeyError (OStr f)) s) →
  wp (iadd l f x) Qok Qex s.
Proof. intros Hok Hex. apply wp_bind. by apply wp_getfield. Qed.

Lemma wp_isub (Qok : unit → Simulation → Prop) (l : loc) (f : string) (x : float)
    (s : Simulation) :
  (∀ v, (heap s !!! l) !! f = Some v →
     Qok tt (set_heap (<[l := <[f := VFloat (fsub (to_float v) x)]> (heap s !!! l)]> (heap s)) s)) →
  ((heap s !!! l) !! f = None → Qex (KeyError (OStr f)) s) →
  wp (isub l f x) Qok Qex s.
Proof. intros Hok Hex. apply wp_bind. by apply wp_getfield. Qed.

End PrimitiveOutcomes.

Ltac wp_norm :=
  cbn [heap set_heap inputs outputs delta_t] in *;
  rewrite ?lookup_total_insert_eq in *.

(** ** One item of a loop *)

Section LoopItems.
Context {A : Type} (I O : tables) (Wr : A → gset loc) (body : A → M unit).
Context (F : gset loc).
Context (Hframe : ∀ y, frame I O (Wr y) (body y)).

(** Dictionaries that no body writes are the same after the loop,
    whether it completes or raises. *)
Lemma for_each_untouched (items : list A) (s : Simulation) :
  (∀ y, y ∈ items → Wr y ## F) →
  at_tables I O s →
  at_tables I O (for_each items body s).1 ∧
  delta_t (for_each items body s).1 = delta_t s ∧
  ∀ l, l ∈ F → heap (for_each items body s).1 !! l = heap s !! l.
Proof.
  revert s. induction items as [|y items IH]; intros s Hdisj Hs; simpl; [done|].
  rewrite bind_run. pose proof (Hframe y s Hs) as (Hs' & Hdt & Hh).
  assert (HF : ∀ l, l ∈ F → heap (body y s).1 !! l = heap s !! l).
  { intros l Hl. apply Hh. specialize (Hdisj y). set_solver. }
  destruct (body y s) as [s1 [[]|e]]; simpl in *; [|done].
  destruct (IH s1) as (Hs'' & Hdt' & Hh'); [|done|].
  { intros z Hz. apply Hdisj. by right. }
  split; [done|]. split; [congruence|]. intros l Hl. by rewrite Hh', HF.
Qed.

(** In a loop that completes, the body of an item [x] runs once, from a
    state in which the dictionaries that only [x] writes are as before
    the loop, and what it leaves in them is there after the loop. *)
Lemma for_each_visit (x : A) (items : list A) (s s' : Simulation) :
  NoDup items → x ∈ items →
  (∀ y, y ∈ items → y ≠ x → Wr y ## F) →
  at_tables I O s →
  for_each items body s = (s', Ok tt) →
  ∃ s3 s4,
    at_tables I O s3 ∧ delta_t s3 = delta_t s ∧
    (∀ l, l ∈ F → heap s3 !! l = heap s !! l) ∧
    body x s3 = (s4, Ok tt) ∧
    (∀ l, l ∈ F → heap s' !! l = heap s4 !! l).
Proof.
  revert s. induction items as [|y items IH]; intros s Hnd Hx Hdisj Hs Hrun.
  { by apply elem_of_nil in Hx. }
  apply NoDup_cons in Hnd as [Hy Hnd].
  simpl in Hrun. rewrite bind_run in Hrun.
  pose proof (Hframe y s Hs) as (Hs1 & Hdt1 & Hh1).
  destruct (body y s) as [s1 [[]|e]] eqn:Hbody; simpl in *; [|done].
  apply elem_of_cons in Hx as [->|Hx].
  - exists s, s1. repeat (split; [done|]).
    intros l Hl.
    destruct (for_each_untouched items s1) as (_ & _ & Hh); [|done|].
    { intros z Hz. apply Hdisj; [by right | by intros ->]. }
    rewrite Hrun in Hh. by apply Hh.
  - assert (y ≠ x) by (by intros ->).
    destruct (IH s1) as (s3 & s4 & Hs3 & Hdt3 & Hh3 & Hb & Hh4); try done.
    { intros z Hz. apply Hdisj. by right. }
    exists s3, s4. split; [done|]. split; [congruence|]. split; [|done].
    intros l Hl. rewrite Hh3 by done. apply Hh1.
    assert (Wr y ## F) by (apply Hdisj; [by left|done]). set_solver.
Qed.

(** A loop raises as soon as the body of one of its items raises in
    every state in which the dictionaries [F], which no body writes,
    are as before the loop. *)
Lemma for_each_raises (x : A) (items : list A) (s : Simulation) :
  x ∈ items →
  (∀ y, y ∈ items → Wr y ## F) →
  at_tables I O s →
  (∀ s3, at_tables I O s3 → (∀ l, l ∈ F → heap s3 !! l = heap s !! l) →
     ∃ e s4, body x s3 = (s4, Raise e)) →
  ∃ e s', for_each items body s = (s', Raise e).
Proof.
  revert s. induction items as [|y items IH]; intros s Hx Hdisj Hs Hraise.
  { by apply elem_of_nil in Hx. }
  simpl. rewrite bind_run.
  pose proof (Hframe y s Hs) as (Hs1 & Hdt1 & Hh1).
  assert (HF : ∀ l, l ∈ F → heap (body y s).1 !! l = heap s !! l).
  { intros l Hl. apply Hh1. specialize (Hdisj y). set_solver. }
  destruct (body y s) as [s1 [[]|e]] eqn:Hbody; simpl in *; [|by eauto].
  apply elem_of_cons in Hx as [->|Hx].
  - destruct (Hraise s Hs) as (e & s4 & He); [done|]. congruence.
  - apply (IH s1); try done.
    + intros z Hz. apply Hdisj. by right.
    + intros s3 Hs3 Hh3. apply Hraise; [done|].
      intros l Hl. by rewrite Hh3, HF.
Qed.

End LoopItems.

Lemma for_each_cons {A} (body : A → M unit) (x : A) (items : list A) :
  for_each (x :: items) body = (body x ;; for_each items body).
Proof. reflexivity. Qed.

Lemma for_each_app {A} (body : A → M unit) (items1 items2 : list A) (s : Simulation) :
  for_each (items1 ++ items2) body s = (for_each items1 body ;; for_each items2 body) s.
Proof.
  revert s. induction items1 as [|x items1 IH]; intros s; simpl.
  - done.
  - rewrite !bind_run. destruct (body x s) as [s1 [[]|e]]; [|done].
    by rewrite IH, bind_run.
Qed.

(** ** The body of the loop over the roots *)

Section RootsBody.
Context (model : model_functions) (RespirationModel : RespirationModel_functions).
Context (I O : tables).

(** When the body returns, the output record of the root, which held
    [root_outputs], holds the four pools updated with the four results
    of the growth law; the respiration has been computed and dropped. *)
Lemma roots_body_outcome (s : Simulation) (root_id : key) (l lo : loc)
    (root_inputs root_outputs : record) :
  at_tables I O s →
  get_table roots O !! root_id = Some lo →
  heap s !!! l = root_inputs →
  heap s !!! lo = root_outputs →
  wp (roots_body model RespirationModel (root_id, l))
     (λ _ s', ∃ sucrose amino_acids mstruct C m n nn r om os oN oa,
        root_inputs !! "sucrose" = Some sucrose ∧
        root_inputs !! "amino_acids" = Some amino_acids ∧
        root_inputs !! "mstruct" = Some mstruct ∧
        calculate_roots_mstruct_growth model (to_float sucrose) (to_float amino_acids)
          (to_float mstruct) (delta_t s) = Ok (C, m, n, nn) ∧
        R_growth RespirationModel C = Ok r ∧
        root_outputs !! "mstruct" = Some om ∧
        root_outputs !! "sucrose" = Some os ∧
        root_outputs !! "Nstruct" = Some oN ∧
        root_outputs !! "amino_acids" = Some oa ∧
        heap s' !! lo =
          Some (<["amino_acids" := VFloat (fsub (to_float oa) nn)]>
                  (<["Nstruct" := VFloat (fadd (to_float oN) n)]>
                     (<["sucrose" := VFloat (fsub (to_float os) C)]>
                        (<["mstruct" := VFloat (fadd (to_float om) m)]> root_outputs)))))
     (λ _ _, True) s.
Proof.
  intros [HI HO] Hlo Hin Hout. unfold roots_body.
  apply wp_bind, wp_getitem_out; [|done]. rewrite HO, Hlo. intros ? [= <-].
  apply wp_bind, wp_getfield; [|done]. rewrite Hin. intros sucrose Hsucrose.
  apply wp_bind, wp_getfield; [|done]. rewrite Hin. intros amino_acids Haa.
  apply wp_bind, wp_getfield; [|done]. rewrite Hin. intros mstruct Hmstruct.
  apply wp_bind, wp_get_delta_t.
  apply wp_bind, wp_lift; [|done]. intros [[[C m] n] nn] Hgrowth.
  apply wp_bind, wp_lift; [|done]. intros r Hr.
  apply wp_bind, wp_iadd; [|done]. rewrite Hout. intros om Hom.
  apply wp_bind, wp_isub; [|done]. wp_norm.
  rewrite lookup_insert_ne by done. intros os Hos.
  apply wp_bind, wp_iadd; [|done]. wp_norm.
  rewrite !lookup_insert_ne by done. intros oN HoN.
  apply wp_bind, wp_isub; [|done]. wp_norm.
  rewrite !lookup_insert_ne by done. intros oa Hoa.
  apply wp_setitem_out; [wp_norm; by rewrite HO|]. wp_norm.
  exists sucrose, amino_acids, mstruct, C, m, n, nn, r, om, os, oN, oa.
  repeat (split; [done|]). by rewrite lookup_insert_eq.
Qed.

End RootsBody.

Lemma contents_lookup (h : store) (t : table) (k : key) (l : loc) (r : record) :
  t !! k = Some l → h !! l = Some r → contents h t !! k = Some r.
Proof.
  intros Hl Hr. unfold contents. rewrite lookup_fmap, Hl. simpl.
  by rewrite (lookup_total_correct _ _ _ Hr).
Qed.

Section StepOutputs.
Context (model : model_functions) (RespirationModel : RespirationModel_functions).

(** C9. After a step that completes, the output record of every root is
    its input record in which [mstruct] and [Nstruct] have grown by
    [mstruct_growth] and [Nstruct_growth], [amino_acids] has lost
    [Nstruct_N_growth], and [sucrose] has lost exactly
    [mstruct_C_growth]: the growth respiration [R_growth] returned is
    deducted from none of the four pools. *)
Theorem run_roots_outputs (s s' : Simulation)
    (hiddenzone_items roots_items : list (key * loc)) :
  well_formed s →
  roots_items ≡ₚ map_to_list (t_roots (inputs s)) →
  run model RespirationModel hiddenzone_items roots_items s = (s', Ok tt) →
  ∀ root_id l, t_roots (inputs s) !! root_id = Some l →
    ∃ sucrose amino_acids mstruct Nstruct
      mstruct_C_growth mstruct_growth Nstruct_growth Nstruct_N_growth Respi_growth,
      (heap s !!! l) !! "sucrose" = Some sucrose ∧
      (heap s !!! l) !! "amino_acids" = Some amino_acids ∧
      (heap s !!! l) !! "mstruct" = Some mstruct ∧
      (heap s !!! l) !! "Nstruct" = Some Nstruct ∧
      calculate_roots_mstruct_growth model (to_float sucrose) (to_float amino_acids)
        (to_float mstruct) (delta_t s)
        = Ok (mstruct_C_growth, mstruct_growth, Nstruct_growth, Nstruct_N_growth) ∧
      R_growth RespirationModel mstruct_C_growth = Ok Respi_growth ∧
      s_roots (outputs_snapshot s') !! root_id =
        Some (<["amino_acids" := VFloat (fsub (to_float amino_acids) Nstruct_N_growth)]>
                (<["Nstruct" := VFloat (fadd (to_float Nstruct) Nstruct_growth)]>
                   (<["sucrose" := VFloat (fsub (to_float sucrose) mstruct_C_growth)]>
                      (<["mstruct" := VFloat (fadd (to_float mstruct) mstruct_growth)]>
                         (heap s !!! l))))).
Proof.
  intros Hwf Hperm Hrun root_id l Hl.
  pose proof (well_formed_allocated s Hwf) as Halloc.
  destruct (update_outputs_spec s Halloc) as (s1 & Hup & Hcopy).
  rewrite (run_after_copy _ _ _ _ s s1 Hup), bind_run in Hrun.
  pose proof (copied_at_tables s s1 Hcopy) as Hs1.
  set (I := inputs s) in *. set (O := outputs s1) in *.
  change (get_table roots I !! root_id = Some l) in Hl.
  (* the output record of the root *)
  assert (∃ lo, get_table roots O !! root_id = Some lo) as [lo Hlo].
  { destruct Hcopy as (_ & _ & _ & (Hdom & _) & _).
    apply elem_of_dom. pose proof (Hdom roots) as Hd. fold O I in Hd.
    rewrite Hd. apply elem_of_dom. by eexists. }
  assert (Hlo1 : heap s1 !! lo = Some (heap s !!! l)).
  { destruct Hcopy as (_ & _ & _ & _ & Hc).
    destruct (Hc roots root_id lo Hlo) as (l' & Hl' & ->). fold I in Hl'. congruence. }
  assert (Hl1 : heap s1 !! l = heap s !! l).
  { destruct Hcopy as (_ & _ & Hold & _). apply Hold, (Halloc roots root_id l Hl). }
  set (F := roots_reads O (root_id, l)).
  assert (HlF : l ∈ F) by (unfold F; solve_loc).
  assert (HloF : lo ∈ F) by (unfold F; solve_loc).
  (* the first loop *)
  destruct (for_each_untouched I O (λ x, hiddenzone_writes O x.1)
              (hiddenzone_body model RespirationModel) F
              (λ y, proj1 (footprint_hiddenzone_body model RespirationModel I O y))
              hiddenzone_items s1) as (Hs2 & Hdt2 & Hh2); [|done|].
  { intros y _. apply elem_of_disjoint. intros l0.
    unfold hiddenzone_writes, F, roots_reads, roots_writes. cbn [fst snd].
    rewrite !elem_of_union, elem_of_singleton, !elem_of_loc_of.
    intros [[Hw|Hw]|Hw] [->|Hr];
      try (by eapply (output_not_input s s1 Halloc Hcopy _ roots _ _ _ Hw));
      by destruct (output_inj s s1 Hcopy _ _ _ _ _ Hw Hr). }
  destruct (for_each hiddenzone_items _ s1) as [s2 [[]|e]]; simpl in *; [|done].
  (* the second loop *)
  destruct (for_each_visit I O (λ x, roots_writes O x.1)
              (roots_body model RespirationModel) F
              (λ y, proj1 (footprint_roots_body model RespirationModel I O y))
              (root_id, l) roots_items s2 s')
    as (s3 & s4 & Hs3 & Hdt3 & Hh3 & Hbody & Hh4); try done.
  { rewrite Hperm. apply NoDup_map_to_list. }
  { rewrite Hperm. by apply elem_of_map_to_list. }
  { intros y Hy Hne. rewrite Hperm in Hy.
    apply (roots_footprints_disjoint s s1 Halloc Hcopy); [done| |done].
    by apply elem_of_map_to_list. }
  assert (Hs' : at_tables I O s').
  { destruct (frame_for_each I O (all_locs O) (roots_body model RespirationModel)
                roots_items) with (s := s2) as (Hs' & _); [|done|by rewrite Hrun in Hs'].
    intros x. apply (frame_mono _ _ (roots_writes O x.1));
      [apply roots_writes_all_locs | apply footprint_roots_body]. }
  pose proof (roots_body_outcome model RespirationModel I O s3 root_id l lo
                (heap s !!! l) (heap s !!! l) Hs3 Hlo) as Hwp.
  apply (wp_intro _ _ _ _ _ _ Hbody) in Hwp.
  - destruct Hwp as (sucrose & amino_acids & mstruct & C & m & n & nn & r
                     & om & os & oN & oa & Hsu & Haa & Hms & Hg & Hr
                     & Hom & Hos & HoN & Hoa & Hheap).
    exists sucrose, amino_acids, mstruct, oN, C, m, n, nn, r.
    repeat (split; [done|]).
    split; [by rewrite <- (proj1 (proj2 Hcopy)), <- Hdt2, <- Hdt3|].
    split; [done|].
    unfold outputs_snapshot, snapshot_of. simpl. rewrite (proj2 Hs').
    apply (contents_lookup _ _ _ lo); [done|].
    rewrite Hh4, Hheap by done. repeat f_equal; congruence.
  - apply lookup_total_agree. by rewrite Hh3, Hh2, Hl1.
  - apply lookup_total_correct. by rewrite Hh3, Hh2.
Qed.

End StepOutputs.

Lemma wp_wand {A} (m : M A) (Q1 Q2 : A → Simulation → Prop)
    (Qex1 Qex2 : exn → Simulation → Prop) (s : Simulation) :
  wp m Q1 Qex1 s → (∀ a s', Q1 a s' → Q2 a s') → (∀ e s', Qex1 e s' → Qex2 e s') →
  wp m Q2 Qex2 s.
Proof. unfold wp. destruct (m s) as [s' [a|e]]; auto. Qed.


(** ** The body of the loop over the hidden zones *)

Section HiddenzoneBody.
Context (model : model_functions) (RespirationModel : RespirationModel_functions).
Context (I O : tables).
Context (Hinj : ∀ n n' k k' l,
           get_table n O !! k = Some l → get_table n' O !! k' = Some l → n = n' ∧ k = k').

(** When the shared body of the two branches returns, the output record
    of the organ has gained the delta of mstruct and the two exports
    computed from that same delta. *)
Lemma emerged_organ_growth_outcome (s : Simulation) (hiddenzone_inputs : loc)
    (organ_id : key) (SW metric : string) :
  at_tables I O s →
  wp (emerged_organ_growth model hiddenzone_inputs organ_id SW metric)
     (λ '(delta_organ_mstruct, export_sucrose, export_amino_acids) s',
        ∃ li lo sw organ_mstruct organ_metric sucrose mstruct amino_acids om os oa,
          get_table organs I !! organ_id = Some li ∧
          get_table organs O !! organ_id = Some lo ∧
          (heap s !!! hiddenzone_inputs) !! SW = Some sw ∧
          (heap s !!! li) !! "mstruct" = Some organ_mstruct ∧
          (heap s !!! li) !! metric = Some organ_metric ∧
          calculate_delta_mstruct_postE model (to_float sw) (to_float organ_mstruct)
            (to_float organ_metric) = Ok delta_organ_mstruct ∧
          (heap s !!! hiddenzone_inputs) !! "sucrose" = Some sucrose ∧
          (heap s !!! hiddenzone_inputs) !! "mstruct" = Some mstruct ∧
          calculate_export_sucrose model delta_organ_mstruct (to_float sucrose)
            (to_float mstruct) = Ok export_sucrose ∧
          (heap s !!! hiddenzone_inputs) !! "amino_acids" = Some amino_acids ∧
          calculate_export_amino_acids model delta_organ_mstruct (to_float amino_acids)
            (to_float mstruct) = Ok export_amino_acids ∧
          (heap s !!! lo) !! "mstruct" = Some om ∧
          (heap s !!! lo) !! "sucrose" = Some os ∧
          (heap s !!! lo) !! "amino_acids" = Some oa ∧
          s' = set_heap
                 (<[lo := <["amino_acids" := VFloat (fadd (to_float oa) export_amino_acids)]>
                            (<["sucrose" := VFloat (fadd (to_float os) export_sucrose)]>
                               (<["mstruct" := VFloat (fadd (to_float om) delta_organ_mstruct)]>
                                  (heap s !!! lo)))]> (heap s)) s)
     (λ _ _, True) s.
Proof.
  intros [HI HO]. unfold emerged_organ_growth.
  apply wp_bind, wp_getitem_in; [|done]. rewrite HI. intros li Hli.
  apply wp_bind, wp_getitem_out; [|done]. rewrite HO. intros lo Hlo.
  apply wp_bind, wp_getfield; [|done]. intros sw Hsw.
  apply wp_bind, wp_getfield; [|done]. intros organ_mstruct Hom.
  apply wp_bind, wp_getfield; [|done]. intros organ_metric Hmetric.
  apply wp_bind, wp_lift; [|done]. intros d Hd.
  apply wp_bind, wp_getfield; [|done]. intros sucrose Hsucrose.
  apply wp_bind, wp_getfield; [|done]. intros mstruct Hmstruct.
  apply wp_bind, wp_lift; [|done]. intros es Hes.
  apply wp_bind, wp_getfield; [|done]. intros amino_acids Haa.
  apply wp_bind, wp_getfield; [|done]. rewrite Hmstruct. intros ? [= <-].
  apply wp_bind, wp_lift; [|done]. intros ea Hea.
  apply wp_bind, wp_iadd; [|done]. intros om Ho1.
  apply wp_bind, wp_iadd; [|done]. wp_norm.
  rewrite lookup_insert_ne by done. intros os Ho2.
  apply wp_bind, wp_iadd; [|done]. wp_norm.
  rewrite !lookup_insert_ne by done. intros oa Ho3.
  apply wp_bind, wp_setitem_out; [wp_norm; by rewrite HO|].
  apply wp_ret. wp_norm.
  exists li, lo, sw, organ_mstruct, organ_metric, sucrose, mstruct, amino_acids, om, os, oa.
  repeat (split; [done|]).
  unfold set_heap. cbn. by rewrite !insert_insert_eq.
Qed.

(** When the body returns for an emerged hidden zone, the output record
    of the organ it feeds and its own output record hold the updates
    below. *)
Lemma hiddenzone_body_outcome (s : Simulation) (hiddenzone_id : key)
    (hiddenzone_inputs lho : loc) (leaf_is_emerged : value) :
  at_tables I O s →
  get_table hiddenzone O !! hiddenzone_id = Some lho →
  (heap s !!! hiddenzone_inputs) !! "leaf_is_emerged" = Some leaf_is_emerged →
  truthy leaf_is_emerged = true →
  wp (hiddenzone_body model RespirationModel (hiddenzone_id, hiddenzone_inputs))
     (λ _ s',
        ∃ lb is_growing li lo leaf_L delta_leaf_L delta_mstruct
          sw organ_mstruct organ_metric delta_organ_mstruct
          sucrose mstruct amino_acids export_sucrose export_amino_acids
          sucrose_consumption_mstruct AA_consumption_mstruct Respi_growth
          om os oa hm hs ha,
          get_table organs I !! (hiddenzone_id ++ [AStr "blade"]) = Some lb ∧
          (heap s !!! lb) !! "is_growing" = Some is_growing ∧
          get_table organs I !! (hiddenzone_id ++ [AStr (target_organ is_growing)]) = Some li ∧
          get_table organs O !! (hiddenzone_id ++ [AStr (target_organ is_growing)]) = Some lo ∧
          (heap s !!! hiddenzone_inputs) !! "leaf_L" = Some leaf_L ∧
          (heap s !!! hiddenzone_inputs) !! "delta_leaf_L" = Some delta_leaf_L ∧
          calculate_delta_mstruct_preE model (to_float leaf_L) (to_float delta_leaf_L)
            = Ok delta_mstruct ∧
          (heap s !!! hiddenzone_inputs) !! target_weight is_growing = Some sw ∧
          (heap s !!! li) !! "mstruct" = Some organ_mstruct ∧
          (heap s !!! li) !! target_metric is_growing = Some organ_metric ∧
          calculate_delta_mstruct_postE model (to_float sw) (to_float organ_mstruct)
            (to_float organ_metric) = Ok delta_organ_mstruct ∧
          (heap s !!! hiddenzone_inputs) !! "sucrose" = Some sucrose ∧
          (heap s !!! hiddenzone_inputs) !! "mstruct" = Some mstruct ∧
          (heap s !!! hiddenzone_inputs) !! "amino_acids" = Some amino_acids ∧
          calculate_export_sucrose model delta_organ_mstruct (to_float sucrose)
            (to_float mstruct) = Ok export_sucrose ∧
          calculate_export_amino_acids model delta_organ_mstruct (to_float amino_acids)
            (to_float mstruct) = Ok export_amino_acids ∧
          calculate_s_mstruct_sucrose model delta_mstruct
            (if truthy is_growing then delta_organ_mstruct else zero)
            (if truthy is_growing then zero else delta_organ_mstruct)
            = Ok sucrose_consumption_mstruct ∧
          calculate_s_mstruct_amino_acids model delta_mstruct
            (if truthy is_growing then delta_organ_mstruct else zero)
            (if truthy is_growing then zero else delta_organ_mstruct)
            = Ok AA_consumption_mstruct ∧
          R_growth RespirationModel sucrose_consumption_mstruct = Ok Respi_growth ∧
          (heap s !!! lo) !! "mstruct" = Some om ∧
          (heap s !!! lo) !! "sucrose" = Some os ∧
          (heap s !!! lo) !! "amino_acids" = Some oa ∧
          (heap s !!! lho) !! "mstruct" = Some hm ∧
          (heap s !!! lho) !! "sucrose" = Some hs ∧
          (heap s !!! lho) !! "amino_acids" = Some ha ∧
          heap s' !! lo =
            Some (<["amino_acids" := VFloat (fadd (to_float oa) export_amino_acids)]>
                    (<["sucrose" := VFloat (fadd (to_float os) export_sucrose)]>
                       (<["mstruct" := VFloat (fadd (to_float om) delta_organ_mstruct)]>
                          (heap s !!! lo)))) ∧
          heap s' !! lho =
            Some (<["amino_acids" :=
                      VFloat (fsub (to_float ha) (fadd AA_consumption_mstruct export_amino_acids))]>
                    (<["sucrose" :=
                         VFloat (fsub (to_float hs)
                                   (fadd (fadd sucrose_consumption_mstruct Respi_growth)
                                      export_sucrose))]>
                       (<["mstruct" := VFloat (fadd (to_float hm) delta_mstruct)]>
                          (heap s !!! lho)))))
     (λ _ _, True) s.
Proof.
  intros Hs Hlho Hem Htruthy. pose proof Hs as [HI HO]. unfold hiddenzone_body.
  apply wp_bind, wp_getitem_out; [|done]. rewrite HO, Hlho. intros ? [= <-].
  apply wp_bind, wp_getfield; [|done]. intros leaf_L HleafL.
  apply wp_bind, wp_getfield; [|done]. intros delta_leaf_L HdL.
  apply wp_bind, wp_lift; [|done]. intros dm Hdm.
  apply wp_bind, wp_getfield; [|done]. rewrite Hem. intros ? [= <-]. rewrite Htruthy.
  apply wp_bind. apply wp_bind, wp_getitem_in; [|done]. rewrite HI. intros lb Hlb.
  apply wp_bind, wp_getfield; [|done]. intros g Hg.
  destruct (truthy g) eqn:Etg.
  all: apply wp_bind; eapply wp_wand;
    [by apply emerged_organ_growth_outcome | | done].
  all: intros [[d es] ea] s1
         (li & lo & sw & organ_mstruct & organ_metric & sucrose & mstruct & amino_acids
          & om & os & oa & Hli & Hlo & Hsw & Hom & Hmetric & Hd & Hsu & Hms & Hes & Haa & Hea
          & Ho1 & Ho2 & Ho3 & ->).
  all: assert (lo ≠ lho) by (intros ->; by destruct (Hinj _ _ _ _ _ Hlo Hlho)).
  all: apply wp_ret.
  all: apply wp_bind, wp_lift; [|done]; intros sc Hsc.
  all: apply wp_bind, wp_lift; [|done]; intros ac Hac.
  all: apply wp_bind, wp_lift; [|done]; intros r Hr.
  all: apply wp_bind, wp_iadd; [|done]; wp_norm;
    rewrite ?lookup_total_insert_ne by done; intros hm Hhm.
  all: apply wp_bind, wp_isub; [|done]; wp_norm;
    rewrite ?lookup_total_insert_ne, ?lookup_insert_ne by done; intros hs Hhs.
  all: apply wp_bind, wp_isub; [|done]; wp_norm;
    rewrite ?lookup_total_insert_ne, ?lookup_insert_ne by done; intros ha Hha.
  all: apply wp_setitem_out; [wp_norm; by rewrite HO|]; wp_norm.
  all: exists lb, g, li, lo, leaf_L, delta_leaf_L, dm, sw, organ_mstruct, organ_metric, d,
         sucrose, mstruct, amino_acids, es, ea, sc, ac, r, om, os, oa, hm, hs, ha.
  all: unfold target_organ, target_weight, target_metric; rewrite Etg.
  all: repeat (split; [done|]).
  all: split; [|by rewrite lookup_insert_eq].
  all: rewrite !lookup_insert_ne by done; by rewrite lookup_insert_eq.
Qed.

End HiddenzoneBody.

Section ExportToOrgan.
Context (model : model_functions) (RespirationModel : RespirationModel_functions).

(** After a step that completes, the output records of an emerged
    hidden zone and of the organ it feeds, whatever the laws of the
    model are. *)
Lemma run_emerged_hiddenzone_outputs (s s' : Simulation)
    (hiddenzone_items roots_items : list (key * loc)) :
  well_formed s →
  hiddenzone_items ≡ₚ map_to_list (t_hiddenzone (inputs s)) →
  run model RespirationModel hiddenzone_items roots_items s = (s', Ok tt) →
  ∀ hiddenzone_id l leaf_is_emerged,
    t_hiddenzone (inputs s) !! hiddenzone_id = Some l →
    (heap s !!! l) !! "leaf_is_emerged" = Some leaf_is_emerged →
    truthy leaf_is_emerged = true →
    ∃ lb is_growing li leaf_L delta_leaf_L delta_mstruct
      sw organ_mstruct organ_metric organ_sucrose organ_amino_acids delta_organ_mstruct
      sucrose mstruct amino_acids export_sucrose export_amino_acids
      sucrose_consumption_mstruct AA_consumption_mstruct Respi_growth,
      let organ_id := hiddenzone_id ++ [AStr (target_organ is_growing)] in
      t_organs (inputs s) !! (hiddenzone_id ++ [AStr "blade"]) = Some lb ∧
      (heap s !!! lb) !! "is_growing" = Some is_growing ∧
      t_organs (inputs s) !! organ_id = Some li ∧
      (heap s !!! l) !! "leaf_L" = Some leaf_L ∧
      (heap s !!! l) !! "delta_leaf_L" = Some delta_leaf_L ∧
      (heap s !!! l) !! target_weight is_growing = Some sw ∧
      (heap s !!! l) !! "sucrose" = Some sucrose ∧
      (heap s !!! l) !! "mstruct" = Some mstruct ∧
      (heap s !!! l) !! "amino_acids" = Some amino_acids ∧
      (heap s !!! li) !! "mstruct" = Some organ_mstruct ∧
      (heap s !!! li) !! target_metric is_growing = Some organ_metric ∧
      (heap s !!! li) !! "sucrose" = Some organ_sucrose ∧
      (heap s !!! li) !! "amino_acids" = Some organ_amino_acids ∧
      calculate_delta_mstruct_preE model (to_float leaf_L) (to_float delta_leaf_L)
        = Ok delta_mstruct ∧
      calculate_delta_mstruct_postE model (to_float sw) (to_float organ_mstruct)
        (to_float organ_metric) = Ok delta_organ_mstruct ∧
      calculate_export_sucrose model delta_organ_mstruct (to_float sucrose)
        (to_float mstruct) = Ok export_sucrose ∧
      calculate_export_amino_acids model delta_organ_mstruct (to_float amino_acids)
        (to_float mstruct) = Ok export_amino_acids ∧
      calculate_s_mstruct_sucrose model delta_mstruct
        (if truthy is_growing then delta_organ_mstruct else zero)
        (if truthy is_growing then zero else delta_organ_mstruct)
        = Ok sucrose_consumption_mstruct ∧
      calculate_s_mstruct_amino_acids model delta_mstruct
        (if truthy is_growing then delta_organ_mstruct else zero)
        (if truthy is_growing then zero else delta_organ_mstruct)
        = Ok AA_consumption_mstruct ∧
      R_growth RespirationModel sucrose_consumption_mstruct = Ok Respi_growth ∧
      s_organs (outputs_snapshot s') !! organ_id =
        Some (<["amino_acids" := VFloat (fadd (to_float organ_amino_acids) export_amino_acids)]>
                (<["sucrose" := VFloat (fadd (to_float organ_sucrose) export_sucrose)]>
                   (<["mstruct" := VFloat (fadd (to_float organ_mstruct) delta_organ_mstruct)]>
                      (heap s !!! li)))) ∧
      s_hiddenzone (outputs_snapshot s') !! hiddenzone_id =
        Some (<["amino_acids" :=
                  VFloat (fsub (to_float amino_acids)
                            (fadd AA_consumption_mstruct export_amino_acids))]>
                (<["sucrose" :=
                     VFloat (fsub (to_float sucrose)
                               (fadd (fadd sucrose_consumption_mstruct Respi_growth)
                                  export_sucrose))]>
                   (<["mstruct" := VFloat (fadd (to_float mstruct) delta_mstruct)]>
                      (heap s !!! l)))).
Proof.
  intros Hwf Hperm Hrun hiddenzone_id l leaf_is_emerged Hl Hem Htruthy.
  pose proof (well_formed_allocated s Hwf) as Halloc.
  destruct (update_outputs_spec s Halloc) as (s1 & Hup & Hcopy).
  rewrite (run_after_copy _ _ _ _ s s1 Hup), bind_run in Hrun.
  pose proof (copied_at_tables s s1 Hcopy) as Hs1.
  pose proof (output_inj s s1 Hcopy) as Hinj.
  pose proof Hcopy as (_ & _ & Hold & (Hdom & _) & Hc).
  set (I := inputs s) in *. set (O := outputs s1) in *.
  change (get_table hiddenzone I !! hiddenzone_id = Some l) in Hl.
  assert (∃ lho, get_table hiddenzone O !! hiddenzone_id = Some lho) as [lho Hlho].
  { apply elem_of_dom. rewrite (Hdom hiddenzone). apply elem_of_dom. by eexists. }
  set (F := hiddenzone_reads I O (hiddenzone_id, l)).
  (* the first loop *)
  destruct (for_each hiddenzone_items _ s1) as [s2 [[]|e]] eqn:Hloop; simpl in Hrun; [|done].
  destruct (for_each_visit I O (λ x, hiddenzone_writes O x.1)
              (hiddenzone_body model RespirationModel) F
              (λ y, proj1 (footprint_hiddenzone_body model RespirationModel I O y))
              (hiddenzone_id, l) hiddenzone_items s1 s2)
    as (s3 & s4 & Hs3 & Hdt3 & Hh3 & Hbody & Hh4); try done.
  { rewrite Hperm. apply NoDup_map_to_list. }
  { rewrite Hperm. by apply elem_of_map_to_list. }
  { intros y Hy Hne. rewrite Hperm in Hy.
    apply (hiddenzone_footprints_disjoint s s1 Halloc Hcopy); [done| |done].
    by apply elem_of_map_to_list. }
  assert (Hs2 : at_tables I O s2).
  { destruct (frame_for_each I O (all_locs O) (hiddenzone_body model RespirationModel)
                hiddenzone_items) with (s := s1) as (Hs2 & _); [|done|by rewrite Hloop in Hs2].
    intros x. apply (frame_mono _ _ (hiddenzone_writes O x.1));
      [apply hiddenzone_writes_all_locs | apply footprint_hiddenzone_body]. }
  (* the body of the hidden zone *)
  assert (Hl3 : heap s3 !!! l = heap s !!! l).
  { apply lookup_total_agree. rewrite Hh3 by (unfold F; solve_loc).
    apply Hold, (Halloc hiddenzone hiddenzone_id l Hl). }
  pose proof (hiddenzone_body_outcome model RespirationModel I O Hinj s3 hiddenzone_id l lho
                leaf_is_emerged Hs3 Hlho) as Hwp.
  rewrite Hl3 in Hwp. specialize (Hwp Hem Htruthy).
  apply (wp_intro _ _ _ _ _ _ Hbody) in Hwp.
  destruct Hwp as (lb & g & li & lo & leaf_L & delta_leaf_L & dm & sw & organ_mstruct
                   & organ_metric & d & sucrose & mstruct & amino_acids & es & ea
                   & sc & ac & r & om & os & oa & hm & hs & ha
                   & Hlb & Hg & Hli & Hlo & HleafL & HdL & Hdm & Hsw & Hom & Hmetric & Hd
                   & Hsu & Hms & Haa & Hes & Hea & Hsc & Hac & Hr
                   & Ho1 & Ho2 & Ho3 & Hh1 & Hh2 & Hha & Horgan & Hhz).
  assert (HlbF : lb ∈ F) by (unfold F; solve_loc).
  assert (HliF : li ∈ F).
  { unfold F. revert Hli. unfold target_organ. destruct (truthy g); intros; solve_loc. }
  assert (HloF : lo ∈ F).
  { unfold F. revert Hlo. unfold target_organ. destruct (truthy g); intros; solve_loc. }
  assert (HlhoF : lho ∈ F) by (unfold F; solve_loc).
  assert (Hlb3 : heap s3 !!! lb = heap s !!! lb).
  { apply lookup_total_agree. rewrite Hh3 by done. apply Hold, (Halloc organs _ _ Hlb). }
  assert (Hli3 : heap s3 !!! li = heap s !!! li).
  { apply lookup_total_agree. rewrite Hh3 by done. apply Hold, (Halloc organs _ _ Hli). }
  assert (Hlo3 : heap s3 !!! lo = heap s !!! li).
  { apply lookup_total_correct. rewrite Hh3 by done.
    destruct (Hc organs _ lo Hlo) as (li' & Hli' & ->). fold I in Hli'. congruence. }
  assert (Hlho3 : heap s3 !!! lho = heap s !!! l).
  { apply lookup_total_correct. rewrite Hh3 by done.
    destruct (Hc hiddenzone _ lho Hlho) as (l' & Hl' & ->). fold I in Hl'. congruence. }
  rewrite Hlb3 in Hg. rewrite Hli3 in Hom, Hmetric.
  rewrite Hlo3 in Ho1, Ho2, Ho3, Horgan. rewrite Hlho3 in Hh1, Hh2, Hha, Hhz.
  (* the second loop *)
  destruct (for_each_untouched I O (λ x, roots_writes O x.1)
              (roots_body model RespirationModel) {[ lo; lho ]}
              (λ y, proj1 (footprint_roots_body model RespirationModel I O y))
              roots_items s2) as (Hs' & _ & Hh'); [|done|].
  { intros y _. apply elem_of_disjoint. intros l0. unfold roots_writes.
    rewrite elem_of_loc_of, elem_of_union, !elem_of_singleton.
    intros Hw [-> | ->]; [by destruct (Hinj _ _ _ _ _ Hw Hlo) | by destruct (Hinj _ _ _ _ _ Hw Hlho)]. }
  rewrite Hrun in Hs', Hh'. simpl in Hs', Hh'.
  exists lb, g, li, leaf_L, delta_leaf_L, dm, sw, organ_mstruct, organ_metric, os, oa, d,
    sucrose, mstruct, amino_acids, es, ea, sc, ac, r.
  cbn zeta. repeat (split; [done|]).
  assert (om = organ_mstruct) as -> by congruence.
  assert (hm = mstruct) as -> by congruence.
  assert (hs = sucrose) as -> by congruence.
  assert (ha = amino_acids) as -> by congruence.
  unfold outputs_snapshot, snapshot_of. simpl. rewrite (proj2 Hs'). split.
  - apply (contents_lookup _ _ _ lo); [done|].
    rewrite Hh' by (apply elem_of_union_l; by apply elem_of_singleton).
    by rewrite Hh4.
  - apply (contents_lookup _ _ _ lho); [done|].
    rewrite Hh' by (apply elem_of_union_r; by apply elem_of_singleton).
    by rewrite Hh4.
Qed.

End ExportToOrgan.

(** When the export law returns, the mstruct of the hidden zone is not
    zero and the export is the delta times the concentration of the
    metabolite, a negative concentration counting for none. *)
Lemma calculate_export_Ok (delta_mstruct metabolite hiddenzone_mstruct export : float) :
  model.calculate_export delta_mstruct metabolite hiddenzone_mstruct = Ok export →
  is_zero hiddenzone_mstruct = false ∧
  export = fmul delta_mstruct (py_max zero (fdiv metabolite hiddenzone_mstruct)).
Proof.
  unfold model.calculate_export, truediv.
  destruct (is_zero hiddenzone_mstruct); [done|].
  cbn. by intros [= <-].
Qed.

Section ExportLaw.
Context (model : model_functions) (RespirationModel : RespirationModel_functions).

(** C8 (corrected). After a step that completes with [calculate_export]
    as the law of the two exports, for every emerged hidden zone (phase
    b: growing lamina; phase c: mature lamina, growing sheath): the
    output mstruct of the organ it feeds is the input mstruct plus
    [delta_organ_mstruct]; the mstruct of the hidden zone is not zero
    and the amounts exported are [delta_organ_mstruct] times the
    concentration of sucrose, of amino acids, in the hidden zone
    (a negative concentration counting for none), each one added to the
    pool of the organ and subtracted from the pool of the hidden zone
    together with its consumption and respiration; the mstruct of the
    hidden zone is not debited, it gains the delta of the
    pre-emergence law. *)
Theorem run_export_of_organ_growth (s s' : Simulation)
    (hiddenzone_items roots_items : list (key * loc)) :
  well_formed s →
  hiddenzone_items ≡ₚ map_to_list (t_hiddenzone (inputs s)) →
  calculate_export_sucrose model = model.calculate_export →
  calculate_export_amino_acids model = model.calculate_export →
  run model RespirationModel hiddenzone_items roots_items s = (s', Ok tt) →
  ∀ hiddenzone_id l leaf_is_emerged,
    t_hiddenzone (inputs s) !! hiddenzone_id = Some l →
    (heap s !!! l) !! "leaf_is_emerged" = Some leaf_is_emerged →
    truthy leaf_is_emerged = true →
    ∃ lb is_growing li leaf_L delta_leaf_L delta_mstruct
      sw organ_mstruct organ_metric organ_sucrose organ_amino_acids delta_organ_mstruct
      sucrose mstruct amino_acids
      sucrose_consumption_mstruct AA_consumption_mstruct Respi_growth,
      let organ_id := hiddenzone_id ++ [AStr (target_organ is_growing)] in
      let export_sucrose :=
        fmul delta_organ_mstruct (py_max zero (fdiv (to_float sucrose) (to_float mstruct))) in
      let export_amino_acids :=
        fmul delta_organ_mstruct
          (py_max zero (fdiv (to_float amino_acids) (to_float mstruct))) in
      t_organs (inputs s) !! (hiddenzone_id ++ [AStr "blade"]) = Some lb ∧
      (heap s !!! lb) !! "is_growing" = Some is_growing ∧
      t_organs (inputs s) !! organ_id = Some li ∧
      (heap s !!! l) !! "leaf_L" = Some leaf_L ∧
      (heap s !!! l) !! "delta_leaf_L" = Some delta_leaf_L ∧
      (heap s !!! l) !! target_weight is_growing = Some sw ∧
      (heap s !!! l) !! "sucrose" = Some sucrose ∧
      (heap s !!! l) !! "mstruct" = Some mstruct ∧
      (heap s !!! l) !! "amino_acids" = Some amino_acids ∧
      (heap s !!! li) !! "mstruct" = Some organ_mstruct ∧
      (heap s !!! li) !! target_metric is_growing = Some organ_metric ∧
      (heap s !!! li) !! "sucrose" = Some organ_sucrose ∧
      (heap s !!! li) !! "amino_acids" = Some organ_amino_acids ∧
      is_zero (to_float mstruct) = false ∧
      calculate_delta_mstruct_preE model (to_float leaf_L) (to_float delta_leaf_L)
        = Ok delta_mstruct ∧
      calculate_delta_mstruct_postE model (to_float sw) (to_float organ_mstruct)
        (to_float organ_metric) = Ok delta_organ_mstruct ∧
      calculate_s_mstruct_sucrose model delta_mstruct
        (if truthy is_growing then delta_organ_mstruct else zero)
        (if truthy is_growing then zero else delta_organ_mstruct)
        = Ok sucrose_consumption_mstruct ∧
      calculate_s_mstruct_amino_acids model delta_mstruct
        (if truthy is_growing then delta_organ_mstruct else zero)
        (if truthy is_growing then zero else delta_organ_mstruct)
        = Ok AA_consumption_mstruct ∧
      R_growth RespirationModel sucrose_consumption_mstruct = Ok Respi_growth ∧
      s_organs (outputs_snapshot s') !! organ_id =
        Some (<["amino_acids" := VFloat (fadd (to_float organ_amino_acids) export_amino_acids)]>
                (<["sucrose" := VFloat (fadd (to_float organ_sucrose) export_sucrose)]>
                   (<["mstruct" := VFloat (fadd (to_float organ_mstruct) delta_organ_mstruct)]>
                      (heap s !!! li)))) ∧
      s_hiddenzone (outputs_snapshot s') !! hiddenzone_id =
        Some (<["amino_acids" :=
                  VFloat (fsub (to_float amino_acids)
                            (fadd AA_consumption_mstruct export_amino_acids))]>
                (<["sucrose" :=
                     VFloat (fsub (to_float sucrose)
                               (fadd (fadd sucrose_consumption_mstruct Respi_growth)
                                  export_sucrose))]>
                   (<["mstruct" := VFloat (fadd (to_float mstruct) delta_mstruct)]>
                      (heap s !!! l)))).
Proof.
  intros Hwf Hperm Hexport_sucrose Hexport_amino_acids Hrun
    hiddenzone_id l leaf_is_emerged Hl Hem Htruthy.
  destruct (run_emerged_hiddenzone_outputs model RespirationModel s s'
              hiddenzone_items roots_items Hwf Hperm Hrun
              hiddenzone_id l leaf_is_emerged Hl Hem Htruthy)
    as (lb & g & li & leaf_L & delta_leaf_L & dm & sw & organ_mstruct & organ_metric
        & os & oa & d & sucrose & mstruct & amino_acids & es & ea & sc & ac & r
        & Hlb & Hg & Hli & HleafL & HdL & Hsw & Hsu & Hms & Haa & Hom & Hmetric & Hos & Hoa
        & Hdm & Hd & Hes & Hea & Hsc & Hac & Hr & Horgan & Hhz).
  rewrite Hexport_sucrose in Hes. rewrite Hexport_amino_acids in Hea.
  apply calculate_export_Ok in Hes as [Hnz ->].
  apply calculate_export_Ok in Hea as [_ ->].
  exists lb, g, li, leaf_L, delta_leaf_L, dm, sw, organ_mstruct, organ_metric, os, oa, d,
    sucrose, mstruct, amino_acids, sc, ac, r.
  cbn zeta. repeat (split; [assumption|]). assumption.
Qed.

End ExportLaw.

(** ** A missing organ *)

Lemma wp_raises {A} (m : M A) (Qex : exn → Simulation → Prop) (s : Simulation) :
  wp m (λ _ _, False) Qex s → ∃ e s', m s = (s', Raise e) ∧ Qex e s'.
Proof. unfold wp. destruct (m s) as [s' [a|e]]; [done|]. eauto. Qed.

Section MissingOrgan.
Context (model : model_functions) (RespirationModel : RespirationModel_functions).
Context (I O : tables).

(** The body of an emerged hidden zone whose target organ has no input
    record raises, whatever the output records hold. *)
Lemma hiddenzone_body_raises (s0 s : Simulation) (hiddenzone_id : key) (l : loc)
    (target : key) :
  inputs s0 = I →
  absent_target s0 hiddenzone_id l target →
  at_tables I O s →
  heap s !!! l = heap s0 !!! l →
  (∀ lb, get_table organs I !! (hiddenzone_id ++ [AStr "blade"]) = Some lb →
         heap s !!! lb = heap s0 !!! lb) →
  wp (hiddenzone_body model RespirationModel (hiddenzone_id, l))
     (λ _ _, False) (λ _ _, True) s.
Proof.
  intros HI0 (e & Hem & Htruthy & Htarget) [HI HO] Hl Hlb. subst I.
  unfold hiddenzone_body.
  apply wp_bind, wp_getitem_out; [intros lho _|done].
  apply wp_bind, wp_getfield; [intros leaf_L _|done].
  apply wp_bind, wp_getfield; [intros delta_leaf_L _|done].
  apply wp_bind, wp_lift; [intros dm _|done].
  apply wp_bind, wp_getfield; [|done]. rewrite Hl, Hem. intros ? [= <-]. rewrite Htruthy.
  apply wp_bind, wp_bind, wp_getitem_in; [|done]. rewrite HI. intros lb Hblade.
  destruct Htarget as [[-> Hnone]|(-> & Hnone & lb' & g & Hblade' & Hg & Hfalse)].
  { simpl in Hblade. congruence. }
  simpl in Hblade. rewrite Hblade' in Hblade. injection Hblade as <-.
  apply wp_bind, wp_getfield; [|done]. rewrite (Hlb lb') by done. rewrite Hg.
  intros ? [= <-]. rewrite Hfalse.
  apply wp_bind. unfold emerged_organ_growth.
  apply wp_bind, wp_getitem_in; [|done]. rewrite HI. simpl. rewrite Hnone. done.
Qed.

(** When its first statements succeed, it raises the lookup error of
    the target organ and has mutated nothing. *)
Lemma hiddenzone_body_raises_KeyError (s0 s : Simulation) (hiddenzone_id : key) (l : loc)
    (target : key) (leaf_L delta_leaf_L : value) (delta_mstruct : float) :
  inputs s0 = I →
  absent_target s0 hiddenzone_id l target →
  at_tables I O s →
  heap s !!! l = heap s0 !!! l →
  (∀ lb, get_table organs I !! (hiddenzone_id ++ [AStr "blade"]) = Some lb →
         heap s !!! lb = heap s0 !!! lb) →
  is_Some (get_table hiddenzone O !! hiddenzone_id) →
  (heap s0 !!! l) !! "leaf_L" = Some leaf_L →
  (heap s0 !!! l) !! "delta_leaf_L" = Some delta_leaf_L →
  calculate_delta_mstruct_preE model (to_float leaf_L) (to_float delta_leaf_L)
    = Ok delta_mstruct →
  hiddenzone_body model RespirationModel (hiddenzone_id, l) s
  = (s, Raise (KeyError (OTuple target))).
Proof.
  intros HI0 (e & Hem & Htruthy & Htarget) [HI HO] Hl Hlb [lho Hlho] HleafL HdL Hdm.
  subst I.
  enough (wp (hiddenzone_body model RespirationModel (hiddenzone_id, l))
            (λ _ _, False) (λ e s', e = KeyError (OTuple target) ∧ s' = s) s) as Hwp.
  { apply wp_raises in Hwp as (e' & s' & -> & -> & ->). done. }
  unfold hiddenzone_body.
  apply wp_bind, wp_getitem_out; rewrite HO, Hlho; [intros ? [= <-]|done].
  apply wp_bind, wp_getfield; rewrite Hl, HleafL; [intros ? [= <-]|done].
  apply wp_bind, wp_getfield; rewrite Hl, HdL; [intros ? [= <-]|done].
  apply wp_bind, wp_lift; rewrite Hdm; [intros ? [= <-]|done].
  apply wp_bind, wp_getfield; rewrite Hl, Hem; [intros ? [= <-]|done]. rewrite Htruthy.
  apply wp_bind, wp_bind.
  destruct Htarget as [[-> Hnone]|(-> & Hnone & lb' & g & Hblade' & Hg & Hfalse)].
  - apply wp_getitem_in; rewrite HI; simpl; rewrite Hnone; done.
  - apply wp_getitem_in; rewrite HI; simpl; rewrite Hblade'; [intros ? [= <-]|done].
    apply wp_bind, wp_getfield; rewrite (Hlb lb') by done; rewrite Hg; [intros ? [= <-]|done].
    rewrite Hfalse. apply wp_bind. unfold emerged_organ_growth.
    apply wp_bind, wp_getitem_in; rewrite HI; simpl; rewrite Hnone; done.
Qed.

End MissingOrgan.

Section MissingOrganStep.
Context (model : model_functions) (RespirationModel : RespirationModel_functions).

(** C7, amended.  When an emerged hidden zone feeds an organ that has
    no input record, the step raises in every iteration order: the
    hidden zone is not skipped.  When the hidden zones iterated before
    it are processed without error and its own pre-emergence delta is
    computed, the exception is the [KeyError] of the identifier of the
    absent organ.  The step then ends in the state the deep copy and the
    bodies of the hidden zones iterated before have produced: their
    updates of [outputs] are kept. *)
Theorem run_missing_organ_aborts (s : Simulation)
    (hiddenzone_items roots_items : list (key * loc))
    (hiddenzone_id : key) (l : loc) (target : key) :
  well_formed s →
  t_hiddenzone (inputs s) !! hiddenzone_id = Some l →
  absent_target s hiddenzone_id l target →
  (hiddenzone_items ≡ₚ map_to_list (t_hiddenzone (inputs s)) →
   ∃ e s', run model RespirationModel hiddenzone_items roots_items s = (s', Raise e)) ∧
  (∀ before after s2 leaf_L delta_leaf_L delta_mstruct,
     hiddenzone_items = before ++ (hiddenzone_id, l) :: after →
     (update_outputs ;; for_each before (hiddenzone_body model RespirationModel)) s
       = (s2, Ok tt) →
     (heap s !!! l) !! "leaf_L" = Some leaf_L →
     (heap s !!! l) !! "delta_leaf_L" = Some delta_leaf_L →
     calculate_delta_mstruct_preE model (to_float leaf_L) (to_float delta_leaf_L)
       = Ok delta_mstruct →
     run model RespirationModel hiddenzone_items roots_items s
       = (s2, Raise (KeyError (OTuple target)))).
Proof.
  intros Hwf Hl Habsent.
  pose proof (well_formed_allocated s Hwf) as Halloc.
  destruct (update_outputs_spec s Halloc) as (s1 & Hup & Hcopy).
  pose proof (copied_at_tables s s1 Hcopy) as Hs1.
  pose proof Hcopy as (_ & _ & Hold & (Hdom & _) & _).
  set (I := inputs s) in *. set (O := outputs s1) in *.
  change (get_table hiddenzone I !! hiddenzone_id = Some l) in Hl.
  set (F := ({[ l ]} ∪ loc_of (get_table organs I) (hiddenzone_id ++ [AStr "blade"]))
            : gset loc).
  assert (Hdisj : ∀ y : key * loc, hiddenzone_writes O y.1 ## F).
  { intros y. apply elem_of_disjoint. intros l0 Hw%hiddenzone_writes_all_locs.
    apply elem_of_all_locs in Hw as (n & k & Hw).
    unfold F. rewrite elem_of_union, elem_of_singleton, elem_of_loc_of.
    intros [->|Hr]; by eapply (output_not_input s s1 Halloc Hcopy). }
  assert (HF : ∀ s3, (∀ l0, l0 ∈ F → heap s3 !! l0 = heap s1 !! l0) →
               heap s3 !!! l = heap s !!! l ∧
               ∀ lb, get_table organs I !! (hiddenzone_id ++ [AStr "blade"]) = Some lb →
                     heap s3 !!! lb = heap s !!! lb).
  { intros s3 Hh. split; [|intros lb Hlb]; apply lookup_total_agree; rewrite Hh.
    - apply Hold, (Halloc hiddenzone _ _ Hl).
    - unfold F. apply elem_of_union_l. by apply elem_of_singleton.
    - apply Hold, (Halloc organs _ _ Hlb).
    - unfold F. rewrite elem_of_union, elem_of_loc_of. by right. }
  split.
  - intros Hperm. rewrite (run_after_copy _ _ _ _ s s1 Hup), bind_run.
    destruct (for_each_raises I O (λ x, hiddenzone_writes O x.1)
                (hiddenzone_body model RespirationModel) F
                (λ y, proj1 (footprint_hiddenzone_body model RespirationModel I O y))
                (hiddenzone_id, l) hiddenzone_items s1) as (e & s' & ->); eauto.
    + rewrite Hperm. by apply elem_of_map_to_list.
    + intros s3 Hs3 Hh3. destruct (HF s3 Hh3) as [Hl3 Hlb3].
      destruct (wp_raises (hiddenzone_body model RespirationModel (hiddenzone_id, l))
                  (λ _ _, True) s3) as (e & s4 & He & _); [|by eauto].
      by apply (hiddenzone_body_raises model RespirationModel I O s s3 hiddenzone_id l target).
  - intros before after s2 leaf_L delta_leaf_L delta_mstruct -> Hbefore HleafL HdL Hdm.
    rewrite bind_run, Hup in Hbefore.
    rewrite (run_after_copy _ _ _ _ s s1 Hup), bind_run, for_each_app, bind_run, Hbefore.
    destruct (for_each_untouched I O (λ x, hiddenzone_writes O x.1)
                (hiddenzone_body model RespirationModel) F
                (λ y, proj1 (footprint_hiddenzone_body model RespirationModel I O y))
                before s1) as (Hs2 & _ & Hh2); [by intros|done|].
    rewrite Hbefore in Hs2, Hh2. simpl in Hs2, Hh2.
    destruct (HF s2 Hh2) as [Hl2 Hlb2].
    rewrite for_each_cons, bind_run.
    rewrite (hiddenzone_body_raises_KeyError model RespirationModel I O s s2 hiddenzone_id l
               target leaf_L delta_leaf_L delta_mstruct); try done.
    apply elem_of_dom. rewrite (Hdom hiddenzone). apply elem_of_dom. by eexists.
Qed.

End MissingOrganStep.

(** ** The sample simulation *)

Section Sample.
Import sample.


Lemma well_formed_simulation : well_formed simulation.
Proof. split; apply (bool_decide_unpack _); vm_compute; exact I. Qed.

Lemma well_formed_simulation_without_blade : well_formed simulation_without_blade.
Proof. split; apply (bool_decide_unpack _); vm_compute; exact I. Qed.

Lemma well_formed_simulation_with_sheath : well_formed simulation_with_sheath.
Proof. split; apply (bool_decide_unpack _); vm_compute; exact I. Qed.

Lemma run_order_independent_witness :
  produced (run model RespirationModel hiddenzone_items roots_items simulation)
  = produced (run model RespirationModel hiddenzone_items' roots_items simulation).
Proof.
  apply (run_order_independent model RespirationModel simulation
           hiddenzone_items hiddenzone_items' roots_items roots_items).
  - apply well_formed_simulation.
  - vm_compute. reflexivity.
  - vm_compute. apply perm_swap.
  - vm_compute. reflexivity.
  - vm_compute. reflexivity.
Defined.

Lemma run_preserves_inputs_witness :
  inputs_snapshot (run model RespirationModel hiddenzone_items roots_items simulation).1
  = inputs_snapshot simulation.
Proof.
  apply (run_preserves_inputs model RespirationModel simulation hiddenzone_items roots_items).
  apply well_formed_simulation.
Defined.

Lemma run_roots_outputs_witness :
  ∃ s' sucrose mstruct_C_growth,
    run model RespirationModel hiddenzone_items roots_items simulation = (s', Ok tt) ∧
    (heap simulation !!! 4%positive) !! "sucrose" = Some sucrose ∧
    (s_roots (outputs_snapshot s') !! roots_1) ≫= (.!! "sucrose")
    = Some (VFloat (fsub (to_float sucrose) mstruct_C_growth)).
Proof.
  assert (Hrun : run model RespirationModel hiddenzone_items roots_items simulation
                 = ((run model RespirationModel hiddenzone_items roots_items simulation).1,
                    Ok tt)) by (vm_compute; reflexivity).
  revert Hrun.
  generalize (run model RespirationModel hiddenzone_items roots_items simulation).1.
  intros s' Hrun.
  destruct (run_roots_outputs model RespirationModel simulation s'
              hiddenzone_items roots_items)
    with (root_id := roots_1) (l := 4%positive)
    as (sucrose & amino_acids & mstruct & Nstruct & C & m & n & nn & r
        & Hsu & _ & _ & _ & _ & _ & Hout).
  - apply well_formed_simulation.
  - vm_compute. reflexivity.
  - exact Hrun.
  - vm_compute. reflexivity.
  - exists s', sucrose, C. split; [exact Hrun|]. split; [exact Hsu|].
    rewrite Hout. cbn [mbind option_bind].
    rewrite lookup_insert_ne by discriminate.
    rewrite lookup_insert_ne by discriminate.
    apply lookup_insert_eq.
Defined.

Lemma run_export_of_organ_growth_witness :
  ∃ s' blade_sucrose blade_delta sucrose_2 mstruct_2
       sheath_sucrose sheath_delta sucrose_3 mstruct_3,
    run model RespirationModel hiddenzone_items_with_sheath roots_items simulation_with_sheath
    = (s', Ok tt) ∧
    (heap simulation_with_sheath !!! 2%positive) !! "sucrose" = Some sucrose_2 ∧
    (heap simulation_with_sheath !!! 2%positive) !! "mstruct" = Some mstruct_2 ∧
    (s_organs (outputs_snapshot s') !! blade_2) ≫= (.!! "sucrose")
    = Some (VFloat (fadd blade_sucrose
                      (fmul blade_delta
                         (py_max zero (fdiv (to_float sucrose_2) (to_float mstruct_2)))))) ∧
    (heap simulation_with_sheath !!! 5%positive) !! "sucrose" = Some sucrose_3 ∧
    (heap simulation_with_sheath !!! 5%positive) !! "mstruct" = Some mstruct_3 ∧
    (s_organs (outputs_snapshot s') !! sheath_3) ≫= (.!! "sucrose")
    = Some (VFloat (fadd sheath_sucrose
                      (fmul sheath_delta
                         (py_max zero (fdiv (to_float sucrose_3) (to_float mstruct_3)))))).
Proof.
  assert (Hrun : run model RespirationModel hiddenzone_items_with_sheath roots_items
                   simulation_with_sheath
                 = ((run model RespirationModel hiddenzone_items_with_sheath roots_items
                       simulation_with_sheath).1, Ok tt)) by (vm_compute; reflexivity).
  revert Hrun.
  generalize (run model RespirationModel hiddenzone_items_with_sheath roots_items
                simulation_with_sheath).1.
  intros s' Hrun.
  destruct (run_export_of_organ_growth model RespirationModel simulation_with_sheath s'
              hiddenzone_items_with_sheath roots_items)
    with (hiddenzone_id := hiddenzone_2) (l := 2%positive) (leaf_is_emerged := VBool true)
    as (lb & g & li & leaf_L & delta_leaf_L & dm & sw & organ_mstruct & organ_metric
        & organ_sucrose & organ_amino_acids & d & sucrose & mstruct & amino_acids
        & sc & ac & r & Hlb & Hg & Hli & _ & _ & _ & Hsu & Hms & _ & _ & _ & _ & _ & _
        & _ & _ & _ & _ & _ & Horgan & _).
  { apply well_formed_simulation_with_sheath. }
  { apply (bool_decide_unpack _). vm_compute. exact I. }
  { reflexivity. }
  { reflexivity. }
  { exact Hrun. }
  { vm_compute. reflexivity. }
  { vm_compute. reflexivity. }
  { reflexivity. }
  destruct (run_export_of_organ_growth model RespirationModel simulation_with_sheath s'
              hiddenzone_items_with_sheath roots_items)
    with (hiddenzone_id := hiddenzone_3) (l := 5%positive) (leaf_is_emerged := VBool true)
    as (lb' & g' & li' & leaf_L' & delta_leaf_L' & dm' & sw' & organ_mstruct' & organ_metric'
        & organ_sucrose' & organ_amino_acids' & d' & sucrose' & mstruct' & amino_acids'
        & sc' & ac' & r' & Hlb' & Hg' & Hli' & _ & _ & _ & Hsu' & Hms' & _ & _ & _ & _ & _ & _
        & _ & _ & _ & _ & _ & Horgan' & _).
  { apply well_formed_simulation_with_sheath. }
  { apply (bool_decide_unpack _). vm_compute. exact I. }
  { reflexivity. }
  { reflexivity. }
  { exact Hrun. }
  { vm_compute. reflexivity. }
  { vm_compute. reflexivity. }
  { reflexivity. }
  assert (lb = 3%positive) as -> by (vm_compute in Hlb; congruence).
  assert (g = VBool true) as -> by (vm_compute in Hg; congruence).
  assert (lb' = 6%positive) as -> by (vm_compute in Hlb'; congruence).
  assert (g' = VBool false) as -> by (vm_compute in Hg'; congruence).
  assert (Hblade : hiddenzone_2 ++ [AStr (target_organ (VBool true))] = blade_2)
    by reflexivity.
  assert (Hsheath : hiddenzone_3 ++ [AStr (target_organ (VBool false))] = sheath_3)
    by reflexivity.
  rewrite Hblade in Horgan. rewrite Hsheath in Horgan'.
  exists s', (to_float organ_sucrose), d, sucrose, mstruct,
    (to_float organ_sucrose'), d', sucrose', mstruct'.
  split; [exact Hrun|]. split; [exact Hsu|]. split; [exact Hms|].
  split; [|split; [exact Hsu'|split; [exact Hms'|]]].
  - rewrite Horgan. cbn [mbind option_bind].
    rewrite lookup_insert_ne by discriminate.
    apply lookup_insert_eq.
  - rewrite Horgan'. cbn [mbind option_bind].
    rewrite lookup_insert_ne by discriminate.
    apply lookup_insert_eq.
Defined.

(** C8, as the specification states it, fails whatever "the amount
    exported" denotes: in the step over the sample the lamina of the
    second hidden zone gains a delta of mstruct of about [0.0012], while the
    hidden zone loses no mstruct (it gains the delta of the
    pre-emergence law), and the lamina receives [1200] of sucrose and
    [120] of amino acids, the delta times the two concentrations. *)
Lemma run_export_is_not_organ_delta :
  ¬ ∃ a, spec.export_equals_organ_delta a model RespirationModel
           simulation hiddenzone_items roots_items.
Proof.
  intros [a Hclaim].
  destruct (Hclaim (run model RespirationModel hiddenzone_items roots_items simulation).1
              hiddenzone_2 2%positive (VBool true))
    as (lb & g & li & sw & organ_mstruct & organ_metric & d & hz_out & organ_out
        & Hlb & Hg & Hli & Hsw & Hom & Hmetric & Hd & Hhz & Horgan & _ & Hexports).
  { vm_compute. reflexivity. }
  { vm_compute. reflexivity. }
  { vm_compute. reflexivity. }
  { reflexivity. }
  assert (lb = 3%positive) as -> by (vm_compute in Hlb; congruence).
  assert (g = VBool true) as -> by (vm_compute in Hg; congruence).
  assert (li = 3%positive) as -> by (vm_compute in Hli; congruence).
  vm_compute in Hsw. injection Hsw as <-.
  vm_compute in Hom. injection Hom as <-.
  vm_compute in Hmetric. injection Hmetric as <-.
  vm_compute in Hd. injection Hd as <-.
  destruct a; destruct Hexports as (x & Hx & Hout);
    vm_compute in Hx; injection Hx as <-.
  - assert (H : (s_hiddenzone (outputs_snapshot
                   (run model RespirationModel hiddenzone_items roots_items simulation).1)
                 !! hiddenzone_2) ≫= (.!! "mstruct") = hz_out !! "mstruct")
      by (rewrite Hhz; reflexivity).
    rewrite Hout in H. vm_compute in H. discriminate H.
  - assert (H : (s_organs (outputs_snapshot
                   (run model RespirationModel hiddenzone_items roots_items simulation).1)
                 !! (hiddenzone_2 ++ [AStr (target_organ (VBool true))]))
                ≫= (.!! "sucrose") = organ_out !! "sucrose")
      by (rewrite Horgan; reflexivity).
    rewrite Hout in H. vm_compute in H. discriminate H.
  - assert (H : (s_organs (outputs_snapshot
                   (run model RespirationModel hiddenzone_items roots_items simulation).1)
                 !! (hiddenzone_2 ++ [AStr (target_organ (VBool true))]))
                ≫= (.!! "amino_acids") = organ_out !! "amino_acids")
      by (rewrite Horgan; reflexivity).
    rewrite Hout in H. vm_compute in H. discriminate H.
Qed.

Lemma run_missing_organ_aborts_witness :
  (∃ e s', run model RespirationModel hiddenzone_items' roots_items simulation_without_blade
           = (s', Raise e)) ∧
  ∃ s2, run model RespirationModel hiddenzone_items roots_items simulation_without_blade
        = (s2, Raise (KeyError (OTuple blade_2))).
Proof.
  assert (Habsent : absent_target simulation_without_blade hiddenzone_2 2%positive blade_2).
  { exists (VBool true). split; [by vm_compute|]. split; [done|]. left. by vm_compute. }
  split.
  - apply (run_missing_organ_aborts model RespirationModel simulation_without_blade
             hiddenzone_items' roots_items hiddenzone_2 2%positive blade_2).
    + apply well_formed_simulation_without_blade.
    + by vm_compute.
    + done.
    + vm_compute. apply perm_swap.
  - eexists.
    eapply (run_missing_organ_aborts model RespirationModel simulation_without_blade
              hiddenzone_items roots_items hiddenzone_2 2%positive blade_2);
      [apply well_formed_simulation_without_blade | by vm_compute | done
      | by instantiate (1 := []); instantiate (1 := [(hiddenzone_1, 1%positive)])
      | by vm_compute | by vm_compute | by vm_compute | by vm_compute].
Defined.

(** C7, as the specification states it, fails: the step over the sample
    without its lamina raises the [KeyError] of the lamina after the
    first hidden zone has been processed, and [outputs], empty before
    the step, then holds the copy of the inputs with the record of the
    first hidden zone updated. *)
Lemma run_abort_is_not_atomic :
  ¬ spec.missing_organ_aborts_atomically model RespirationModel
      simulation_without_blade hiddenzone_items roots_items.
Proof.
  intros Hclaim.
  destruct (Hclaim hiddenzone_2 2%positive blade_2) as (s' & Hrun & Hsnap).
  { by vm_compute. }
  { exists (VBool true). split; [by vm_compute|]. split; [done|]. left. by vm_compute. }
  apply (f_equal fst) in Hrun. simpl in Hrun. subst s'.
  apply (f_equal (λ x, bool_decide (is_Some (s_hiddenzone x !! hiddenzone_1)))) in Hsnap.
  vm_compute in Hsnap. discriminate Hsnap.
Qed.

End Sample.
